(** * mbgl-renderer: [src/render.js]

    A shallow embedding of the tile-source resolution layer, the remote and
    local tile adapters, the request dispatcher and the [render] entry point,
    together with the properties of the specification that concern them.

    Conventions of the embedding.
    - JavaScript strings are [string]s.  The two character classes used by the
      source, [[^/]] and [\d], are decided per ASCII byte; no byte of a
      multi-byte UTF-8 sequence is ['/'] or a digit, so captures agree with
      the UTF-16 view of the engine.
    - JavaScript numbers are [NaN] or an exact rational.  Every comparison in
      the source is against an integer constant, so the rational carries the
      outcome of the comparison exactly.  The two infinities compare like a
      finite value beyond every bound and are not represented apart.
    - Code that calls out to the runtime (archive store, HTTP client, map
      engine, image encoder) is a [prog]: a tree whose nodes are the calls and
      whose branches are the callbacks handed to them. *)

From Stdlib Require Import String Ascii List Bool Arith ZArith QArith Qabs Qminmax Lia.
Import ListNotations.

Local Close Scope Q_scope.
Local Open Scope list_scope.
Local Open Scope string_scope.

(* ================================================================= *)
(** ** JavaScript values *)

Module JS.

(** Numbers: [NaN] or a finite value. *)
Inductive number : Type :=
| NaN
| Num (q : Q).

Definition num_of_Z (z : Z) : number := Num (inject_Z z).

(** [a > b]; any comparison with [NaN] is false. *)
Definition num_gt (a b : number) : bool :=
  match a, b with
  | Num x, Num y => negb (Qle_bool x y)
  | _, _ => false
  end.

(** [a < b]. *)
Definition num_lt (a b : number) : bool := num_gt b a.

(** [a - b]. *)
Definition num_sub (a b : number) : number :=
  match a, b with
  | Num x, Num y => Num (x - y)%Q
  | _, _ => NaN
  end.

(** [Math.abs]. *)
Definition Math_abs (a : number) : number :=
  match a with
  | NaN => NaN
  | Num x => Num (Qabs x)
  end.

(** [Math.max] of two arguments. *)
Definition Math_max (a b : number) : number :=
  match a, b with
  | Num x, Num y => Num (Qmax x y)
  | _, _ => NaN
  end.

(** Structured values: what [JSON.parse] yields, and what a style is. *)
#[warnings="-register-all"]
Inductive json : Type :=
| JNull
| JBool (b : bool)
| JNum (n : number)
| JStr (s : string)
| JArr (items : list json)
| JObj (fields : list (string * json)).

Definition string_truthy (s : string) : bool :=
  match s with
  | EmptyString => false
  | String _ _ => true
  end.

Definition number_truthy (n : number) : bool :=
  match n with
  | NaN => false
  | Num q => negb (Qeq_bool q 0%Q)
  end.

(** ToBoolean. *)
Definition truthy (v : json) : bool :=
  match v with
  | JNull => false
  | JBool b => b
  | JNum n => number_truthy n
  | JStr s => string_truthy s
  | JArr _ => true
  | JObj _ => true
  end.

(** ToBoolean of a value that may be [undefined]. *)
Definition truthy_opt {A} (t : A -> bool) (v : option A) : bool :=
  match v with
  | None => false
  | Some a => t a
  end.

(** A piece of a template literal: fixed text or an interpolated value, kept
    symbolic (its ToString is not needed by any property below). *)
Inductive piece : Type :=
| Txt (s : string)
| NumV (n : number)
| ArrV (l : list number)
| ValV (v : json).

(** Thrown values. *)
Inductive jsexn : Type :=
| Error (message : list piece)
| TypeError (message : string).

(** [new Error(v)] for a value read out of a parsed document: the message is
    [""] for [undefined], the string itself for a string, ToString otherwise. *)
Definition Error_of (v : option json) : jsexn :=
  match v with
  | None => Error []
  | Some (JStr s) => Error [Txt s]
  | Some v => Error [ValV v]
  end.

(** Property lookup [o.key] on a parsed value: [null] has no properties and
    the access throws; an object yields the field or [undefined]; the other
    values have no such own property. *)
Fixpoint assoc (key : string) (fields : list (string * json)) : option json :=
  match fields with
  | [] => None
  | (k, v) :: rest => if String.eqb k key then Some v else assoc key rest
  end.

Definition get_prop (v : json) (key : string) : jsexn + option json :=
  match v with
  | JNull => inl (TypeError "Cannot read property of null")
  | JObj fields => inr (assoc key fields)
  | _ => inr None
  end.

(** *** Strings *)

(** [s.startsWith(p)]. *)
Fixpoint startsWith (p s : string) : bool :=
  match p, s with
  | EmptyString, _ => true
  | String a p', String b s' => Ascii.eqb a b && startsWith p' s'
  | String _ _, EmptyString => false
  end.

Fixpoint drop (n : nat) (s : string) : string :=
  match n, s with
  | O, _ => s
  | S n', String _ s' => drop n' s'
  | S _, EmptyString => EmptyString
  end.

(** Cut [s] at the first occurrence of [sep]: the text before and after it. *)
Fixpoint cut (sep s : string) : option (string * string) :=
  if startsWith sep s then Some (EmptyString, drop (String.length sep) s)
  else match s with
       | EmptyString => None
       | String c s' =>
           match cut sep s' with
           | Some (a, b) => Some (String c a, b)
           | None => None
           end
       end.

Fixpoint split_from (fuel : nat) (sep s : string) : list string :=
  match fuel with
  | O => [s]
  | S fuel' =>
      match cut sep s with
      | None => [s]
      | Some (a, b) => a :: split_from fuel' sep b
      end
  end.

(** [s.split(sep)] for a non-empty separator.  Every cut removes at least one
    character, so [S (length s)] rounds are never exhausted. *)
Definition str_split (sep s : string) : list string :=
  split_from (S (String.length s)) sep s.

(** *** Regular expressions: the combinators [TILE_REGEXP] is built from.

    A matcher takes the remaining input and a continuation for what follows
    in the pattern; a quantifier that fails later gives back characters one
    at a time, as the backtracking engine does. *)

(** A literal. *)
Fixpoint re_lit (l s : string) : option string :=
  match l, s with
  | EmptyString, _ => Some s
  | String a l', String b s' => if Ascii.eqb a b then re_lit l' s' else None
  | String _ _, EmptyString => None
  end.

(** [cls+], greedy: take the longest run first and shorten on failure.
    [acc] is what the group has captured so far. *)
Fixpoint re_plus {A} (cls : ascii -> bool) (s acc : string)
         (k : string -> string -> option A) : option A :=
  match s with
  | EmptyString => None
  | String c s' =>
      if cls c then
        match re_plus cls s' (acc ++ String c EmptyString) k with
        | Some r => Some r
        | None => k (acc ++ String c EmptyString) s'
        end
      else None
  end.

(** [\d] *)
Definition digit (c : ascii) : bool :=
  let n := nat_of_ascii c in (48 <=? n)%nat && (n <=? 57)%nat.

(** [[^/]] *)
Definition not_slash (c : ascii) : bool := negb (Ascii.eqb c "/"%char).

(** [arr.slice(from, to)] for [0 <= from <= to]. *)
Definition slice {A} (l : list A) (from to : nat) : list A :=
  firstn (to - from) (skipn from l).

End JS.

Import JS.

(* ================================================================= *)
(** ** URL resolver *)

(** [TILE_REGEXP = RegExp('mbtiles://([^/]+)/(\\d+)/(\\d+)/(\\d+)')],
    tried at the start of [s]: the match array
    [[whole; service; z; x; y]] when it matches there. *)
Definition TILE_REGEXP_here (s : string) : option (list string) :=
  match re_lit "mbtiles://" s with
  | None => None
  | Some r0 =>
    re_plus not_slash r0 "" (fun service r1 =>
    match re_lit "/" r1 with
    | None => None
    | Some r2 =>
      re_plus digit r2 "" (fun z r3 =>
      match re_lit "/" r3 with
      | None => None
      | Some r4 =>
        re_plus digit r4 "" (fun x r5 =>
        match re_lit "/" r5 with
        | None => None
        | Some r6 =>
          re_plus digit r6 "" (fun y _ =>
            Some [ "mbtiles://" ++ service ++ "/" ++ z ++ "/" ++ x ++ "/" ++ y;
                   service; z; x; y ])
        end)
      end)
    end)
  end.

(** [url.match(TILE_REGEXP)]: the pattern is not anchored, so every start
    position is tried from the left; [None] is JavaScript's [null]. *)
Fixpoint match_TILE_REGEXP (url : string) : option (list string) :=
  match TILE_REGEXP_here url with
  | Some m => Some m
  | None =>
      match url with
      | EmptyString => None
      | String _ rest => match_TILE_REGEXP rest
      end
  end.

(** [resolveNamefromURL = url => url.split('://')[1].split('/')[0]].
    When the URL has no ["://"] the second element is [undefined] and the
    call of [split] on it throws. *)
Definition resolveNamefromURL (url : string) : jsexn + string :=
  match nth_error (str_split "://" url) 1 with
  | None => inl (TypeError "Cannot read property 'split' of undefined")
  | Some rest => inr (hd "" (str_split "/" rest))
  end.

(** Node's [path.format(pathObject)] for an object with [root], [name] and
    [ext] only: [dir] falls back to [root], and a directory equal to the root
    is prefixed to the base name as it is, with no separator added. *)
Definition path_format (root : option string) (name ext : string) : string :=
  let base := name ++ ext in
  match root with
  | None => base
  | Some dir => if string_truthy dir then dir ++ base else base
  end.

(** [resolveMBTilesURL = (tilePath, url) =>
      path.format({ root: tilePath, name: resolveNamefromURL(url), ext: '.mbtiles' })] *)
Definition resolveMBTilesURL (tilePath : option string) (url : string)
  : jsexn + string :=
  match resolveNamefromURL url with
  | inl e => inl e
  | inr name => inr (path_format tilePath name ".mbtiles")
  end.

(* ================================================================= *)
(** ** The runtime the code calls into *)

(** What [mbtiles.getInfo] reports, as far as [getTileJSON] reads it; a field
    may be [undefined]. *)
Record info : Type := {
  info_minzoom : option json;
  info_maxzoom : option json;
  info_center : option json;
  info_bounds : option json
}.

(** An opened archive: the object handed to the callback of [new MBTiles]. *)
Record archive : Type := {
  getInfo_result : jsexn + info;
  getTile_result : string -> string -> string -> jsexn + string
}.

(** The object literal built by [getTileJSON]. *)
Record tilejson : Type := {
  tj_tilejson : string;
  tj_tiles : list string;
  tj_minzoom : option json;
  tj_maxzoom : option json;
  tj_center : option json;
  tj_bounds : option json
}.

(** A buffer: raw bytes, or [Buffer.from(JSON.stringify(t))] kept symbolic. *)
Inductive buffer : Type :=
| Raw (bytes : string)
| Stringified (t : tilejson).

(** [new Date(s)], kept symbolic. *)
Inductive date : Type :=
| Date_of (s : string).

(** The object passed as second argument to the engine's callback; a field
    that was never assigned is [None]. *)
Record response : Type := {
  modified : option date;
  expires : option date;
  etag : option string;
  data : option buffer
}.

(** [{}] *)
Definition empty_response : response :=
  {| modified := None; expires := None; etag := None; data := None |}.

(** The response object of the HTTP client: status and header table. *)
Record http_res : Type := {
  statusCode : Z;
  headers : string -> option string
}.

(** The argument of [map.render]. *)
Record render_params : Type := {
  p_zoom : option number;
  p_center : option (list number);
  p_height : number;
  p_width : number
}.

(** Everything observable: console output, calls of the engine's callback,
    calls into the runtime, settling of the promise, and exceptions and
    promise rejections that nothing handles. *)
Inductive event : Type :=
| console_log (s : string)
| console_error (e : jsexn)
| callback_called (err : option jsexn) (res : option response)
| archive_opened (file : string)
| info_queried
| tile_queried (z x y : string)
| http_requested (url : string)
| map_created (tilePath : option string)
| map_loaded (style : option json)
| map_rendered (p : render_params)
| image_encoded (w h : number)
| promise_resolved (png : string)
| uncaught (e : jsexn)
| unhandled_rejection (e : jsexn).

(** A computation: it returns, throws, does something observable and goes
    on, or ends in a call into the runtime that takes a callback.  All such
    calls are in tail position in the source.  [sharp_png raw w h k] is
    [sharp(raw, { raw: { width: w, height: h, channels: 4 } }).png()
    .toBuffer().then(k)]. *)
Inductive prog : Type :=
| Done
| Throw (e : jsexn)
| Emit (ev : event) (k : prog)
| MBTiles_new (file : string) (k : jsexn + archive -> prog)
| mbtiles_getInfo (a : archive) (k : jsexn + info -> prog)
| mbtiles_getTile (a : archive) (z x y : string) (k : jsexn + string -> prog)
| webRequest (url : string) (k : jsexn + (http_res * string) -> prog)
| map_render (p : render_params) (k : jsexn + string -> prog)
| sharp_png (raw : string) (w h : number) (k : string -> prog).

(** [try { body } catch (err) { handler err }].  The callbacks handed to the
    archive store and to the HTTP client run in a later tick, after the [try]
    block has been left, so the handler does not reach them.  ([map.render]
    is not called inside a [try] block.) *)
Fixpoint try_catch (body : prog) (handler : jsexn -> prog) : prog :=
  match body with
  | Done => Done
  | Throw e => handler e
  | Emit ev k => Emit ev (try_catch k handler)
  | other => other
  end.

(** What becomes of an encoding: [sharp(...)] throws on its arguments
    before it returns, or the promise of [toBuffer] is rejected, or it is
    fulfilled with the image. *)
Inductive encoding : Type :=
| Refused (e : jsexn)
| Failed (e : jsexn)
| Encoded (png : string).

(** The runtime: what each call answers. *)
Record world : Type := {
  open_archive : string -> jsexn + archive;
  http_get : string -> jsexn + (http_res * string);
  engine_render : render_params -> jsexn + string;
  (** whether the engine calls back before [map.render] returns *)
  engine_sync : bool;
  encode_png : string -> number -> number -> encoding
}.

(** What a later tick leaves behind: its events, and the exception it ended
    with, if any, as an uncaught one. *)
Definition later (r : list event * option jsexn) : list event :=
  match snd r with
  | None => fst r
  | Some e => (fst r ++ [uncaught e])%list
  end.

(** Run a computation to the end: the events in order, and the exception
    that left the synchronous part, if any.  An exception thrown by
    [sharp(...)] leaves the callback that made the call; a rejection of
    [toBuffer] rejects the promise made by [then], which nothing handles. *)
Fixpoint exec (W : world) (p : prog) : list event * option jsexn :=
  match p with
  | Done => ([], None)
  | Throw e => ([], Some e)
  | Emit ev k => let r := exec W k in (ev :: fst r, snd r)
  | MBTiles_new file k =>
      (archive_opened file :: later (exec W (k (open_archive W file))), None)
  | mbtiles_getInfo a k =>
      (info_queried :: later (exec W (k (getInfo_result a))), None)
  | mbtiles_getTile a z x y k =>
      (tile_queried z x y :: later (exec W (k (getTile_result a z x y))), None)
  | webRequest url k =>
      (http_requested url :: later (exec W (k (http_get W url))), None)
  | map_render p k =>
      let r := exec W (k (engine_render W p)) in
      if engine_sync W then (map_rendered p :: fst r, snd r)
      else (map_rendered p :: later r, None)
  | sharp_png raw w h k =>
      match encode_png W raw w h with
      | Refused e => ([], Some e)
      | Failed e => ([unhandled_rejection e], None)
      | Encoded png => (image_encoded w h :: later (exec W (k png)), None)
      end
  end.

Definition trace (W : world) (p : prog) : list event := fst (exec W p).

(** The state of a promise. *)
Inductive promise : Type :=
| Pending
| Fulfilled (png : string)
| Rejected (e : jsexn).

Fixpoint first_resolved (t : list event) : option string :=
  match t with
  | [] => None
  | promise_resolved png :: _ => Some png
  | _ :: rest => first_resolved rest
  end.

(** [new Promise((resolve) => executor)]: an exception leaving the executor
    rejects the promise; otherwise it is fulfilled by the first call of
    [resolve], and stays pending when there is none. *)
Definition new_Promise (W : world) (executor : prog) : promise :=
  match exec W executor with
  | (_, Some e) => Rejected e
  | (t, None) =>
      match first_resolved t with
      | Some png => Fulfilled png
      | None => Pending
      end
  end.

(* ================================================================= *)
(** ** [render.js] *)

(** The result of [geoViewport.viewport]. *)
Record viewport : Type := {
  vp_center : list number;
  vp_zoom : number
}.

(** The request object the engine passes to [mapOptions.request]. *)
Record tile_request : Type := {
  url : string;
  kind : Z
}.

(** The [options] argument of [render]; [None] is a property that is absent
    or [null] (the destructuring defaults turn the former into the latter). *)
Record options : Type := {
  bounds : option (list number);
  tilePath : option string;
  center : option (list number);
  zoom : option number
}.

(** The callback convention of the engine: [(err, data)]. *)
Definition callback_t : Type := option jsexn -> option response -> prog.

(** [if (c) throw e], as the exception it raises, if any. *)
Definition throw_if (c : bool) (e : jsexn) : option jsexn :=
  if c then Some e else None.

(** Statements in sequence: the first one that throws ends the block. *)
Definition and_then (a b : option jsexn) : option jsexn :=
  match a with
  | Some e => Some e
  | None => b
  end.

(** Run the checks, then the rest. *)
Definition checked (c : option jsexn) (k : prog) : prog :=
  match c with
  | Some e => Throw e
  | None => k
  end.

Declare Scope js_scope.
Delimit Scope js_scope with js.
Notation "a ;; b" := (and_then a b)
  (at level 61, right associativity) : js_scope.
Notation "c ;;; k" := (checked c k)
  (at level 62, right associativity) : js_scope.

Local Open Scope js_scope.

Definition is_null {A} (v : option A) : bool :=
  match v with
  | None => true
  | Some _ => false
  end.

(** The callback the engine hands to [mapOptions.request]: calling it is
    observable, and it returns. *)
Definition engine_callback : callback_t :=
  fun err res => Emit (callback_called err res) Done.

(** The calls of the engine's callback among the events. *)
Fixpoint callbacks (t : list event) : list event :=
  match t with
  | [] => []
  | callback_called err res :: rest => callback_called err res :: callbacks rest
  | _ :: rest => callbacks rest
  end.

(** A parameter with the default value 1024: [None] is an omitted argument. *)
Definition arg_or_1024 (a : option number) : number :=
  match a with
  | None => num_of_Z 1024
  | Some n => n
  end.

(** A position within a box [[west; south; east; north]]. *)
Definition within (box position : list number) : bool :=
  match box, position with
  | [Num west; Num south; Num east; Num north], [Num lng; Num lat] =>
      Qle_bool west lng && Qle_bool lng east
      && Qle_bool south lat && Qle_bool lat north
  | _, _ => false
  end.

Section RenderJS.

(** The two library functions the module relies on besides the runtime:
    [geoViewport.viewport(bounds, dimensions)] of [@mapbox/geo-viewport] and
    the built-in [JSON.parse], which throws on malformed input. *)
Variable geoViewport_viewport : list number -> list number -> viewport.
Variable JSON_parse : string -> jsexn + json.

(** [getTileJSON(tilePath, url, callback)] *)
Definition getTileJSON (tilePath : option string) (url : string)
           (callback : callback_t) : prog :=
  match resolveMBTilesURL tilePath url with
  | inl e => Throw e
  | inr mbtilesFilename =>
  match resolveNamefromURL url with
  | inl e => Throw e
  | inr service =>
    MBTiles_new mbtilesFilename (fun opened =>
      match opened with
      | inl err => callback (Some err) None
      | inr mbtiles =>
        mbtiles_getInfo mbtiles (fun answered =>
          match answered with
          | inl infoErr => callback (Some infoErr) None
          | inr info =>
            let tileJSON :=
              {| tj_tilejson := "1.0.0";
                 tj_tiles := ["mbtiles://" ++ service ++ "/{z}/{x}/{y}"];
                 tj_minzoom := info_minzoom info;
                 tj_maxzoom := info_maxzoom info;
                 tj_center := info_center info;
                 tj_bounds := info_bounds info |} in
            callback None
              (Some {| modified := None; expires := None; etag := None;
                       data := Some (Stringified tileJSON) |})
          end)
      end)
  end
  end.

(** [getTile(tilePath, url, callback)].  [matches] is [null] when the
    pattern does not match, and [matches.slice] then throws. *)
Definition getTile (tilePath : option string) (url : string)
           (callback : callback_t) : prog :=
  match match_TILE_REGEXP url with
  | None => Throw (TypeError "Cannot read property 'slice' of null")
  | Some matches =>
    let zxy := slice matches (List.length matches - 3) (List.length matches) in
    let z := nth 0 zxy "" in
    let x := nth 1 zxy "" in
    let y := nth 2 zxy "" in
    match resolveMBTilesURL tilePath url with
    | inl e => Throw e
    | inr mbtilesFile =>
      MBTiles_new mbtilesFile (fun opened =>
        match opened with
        | inl err => callback (Some err) None
        | inr mbtiles =>
          mbtiles_getTile mbtiles z x y (fun answered =>
            match answered with
            | inl tileErr =>
                Emit (console_log ("error fetching tile: z:" ++ z ++ " x:" ++ x
                                   ++ " y:" ++ y ++ " from " ++ mbtilesFile))
                     (callback None (Some empty_response))
            | inr bytes =>
                callback None
                  (Some {| modified := None; expires := None; etag := None;
                           data := Some (Raw bytes) |})
            end)
        end)
    end
  end.

(** [getRemoteTile(url, callback)] *)
Definition getRemoteTile (url : string) (callback : callback_t) : prog :=
  webRequest url (fun answered =>
    match answered with
    | inl err => callback (Some err) None
    | inr (res, body) =>
      if (statusCode res =? 200)%Z then
        let response :=
          {| modified :=
               if truthy_opt string_truthy (headers res "modified")
               then option_map Date_of (headers res "modified") else None;
             expires :=
               if truthy_opt string_truthy (headers res "expires")
               then option_map Date_of (headers res "expires") else None;
             etag :=
               if truthy_opt string_truthy (headers res "etag")
               then headers res "etag" else None;
             data := Some (Raw body) |} in
        callback None (Some response)
      else
        match JSON_parse body with
        | inl e => Throw e
        | inr parsed =>
          match get_prop parsed "message" with
          | inl e => Throw e
          | inr message => callback (Some (Error_of message)) None
          end
        end
    end).

(** [mapOptions.request], bound to the [tilePath] of the render call. *)
Definition request (tilePath : option string) (req : tile_request)
           (callback : callback_t) : prog :=
  let url := url req in
  let kind := kind req in
  let isMBTiles := startsWith "mbtiles://" url in
  try_catch
    (if (kind =? 2)%Z then
       (if isMBTiles then getTileJSON tilePath url callback else Done)
     else if (kind =? 3)%Z then
       (if isMBTiles then getTile tilePath url callback
        else getRemoteTile url callback)
     else Done)
    (fun err => Emit (console_error err) (callback (Some err) None)).

(** The messages of the validation errors of [render]. *)
Definition style_required : jsexn :=
  Error [Txt "style is a required parameter"].
Definition size_required : jsexn :=
  Error [Txt "width and height are required parameters and must be non-zero"].
Definition center_malformed (center : list number) : jsexn :=
  Error [Txt "Center must be longitude,latitude.  Invalid value found: ";
         ArrV center].
Definition longitude_outside (lng : number) : jsexn :=
  Error [Txt "Center longitude is outside world bounds (-180 to 180 deg): ";
         NumV lng].
Definition latitude_outside (lat : number) : jsexn :=
  Error [Txt "Center latitude is outside world bounds (-90 to 90 deg): ";
         NumV lat].
Definition zoom_outside (zoom : number) : jsexn :=
  Error [Txt "Zoom level is outside supported range (0-22): "; NumV zoom].
Definition bounds_malformed (bounds : list number) : jsexn :=
  Error [Txt "Bounds must be west,south,east,north.  Invalid value found: ";
         ArrV bounds].

(** The body of the callback given to [map.render]. *)
Definition render_done (width height : number) (answered : jsexn + string)
  : prog :=
  match answered with
  | inl err => Throw err
  | inr buffer =>
      sharp_png buffer width height (fun png => Emit (promise_resolved png) Done)
  end.

(** The checks at the head of [render] (lines 166-195), in order: the
    exception thrown by the first one that fails, if any. *)
Definition validation (style : option json) (width height : number)
           (options : options) : option jsexn :=
  throw_if (negb (truthy_opt truthy style)) style_required ;;
  throw_if (negb (number_truthy width && number_truthy height)) size_required ;;
  match center options with
  | None => None
  | Some c =>
      throw_if (negb (List.length c =? 2)%nat) (center_malformed c) ;;
      throw_if (num_gt (Math_abs (nth 0 c NaN)) (num_of_Z 180))
               (longitude_outside (nth 0 c NaN)) ;;
      throw_if (num_gt (Math_abs (nth 1 c NaN)) (num_of_Z 90))
               (latitude_outside (nth 1 c NaN))
  end ;;
  match zoom options with
  | None => None
  | Some zm =>
      throw_if (num_lt zm (num_of_Z 0) || num_gt zm (num_of_Z 22))
               (zoom_outside zm)
  end ;;
  match bounds options with
  | None => None
  | Some b => throw_if (negb (List.length b =? 4)%nat) (bounds_malformed b)
  end.

(** "calculate zoom and center from bounds and image dimensions"
    (lines 197-203): the values of [zoom] and [center] after the block. *)
Definition resolve_viewport (width height : number) (options : options)
  : option number * option (list number) :=
  match bounds options with
  | Some b =>
      if is_null (zoom options) || is_null (center options) then
        let viewport := geoViewport_viewport b [width; height] in
        (Some (Math_max (num_sub (vp_zoom viewport) (num_of_Z 1)) (num_of_Z 0)),
         Some (vp_center viewport))
      else (zoom options, center options)
  | None => (zoom options, center options)
  end.

(** The executor of the promise [render] returns.  An omitted [width] or
    [height] takes the default 1024. *)
Definition render (style : option json) (width height : option number)
           (options : options) : prog :=
  let width := arg_or_1024 width in
  let height := arg_or_1024 height in
  validation style width height options ;;;
  let resolved := resolve_viewport width height options in
  Emit (map_created (tilePath options))
    (Emit (map_loaded style)
       (map_render {| p_zoom := fst resolved; p_center := snd resolved;
                      p_height := height; p_width := width |}
                   (render_done width height))).

(** The [catch] block of [mapOptions.request]. *)
Definition request_handler (callback : callback_t) : jsexn -> prog :=
  fun err => Emit (console_error err) (callback (Some err) None).

(** The argument [render] passes to [map.render]. *)
Definition engine_params (width height : option number) (options : options)
  : render_params :=
  let w := arg_or_1024 width in
  let h := arg_or_1024 height in
  let resolved := resolve_viewport w h options in
  {| p_zoom := fst resolved; p_center := snd resolved;
     p_height := h; p_width := w |}.

(** [render] with an [options] argument that may be missing: the
    destructuring of lines 163-164 throws on [undefined] (and on [null])
    before any check is made. *)
Definition render_call (style : option json) (width height : option number)
           (options : option options) : prog :=
  match options with
  | None => Throw (TypeError "Cannot destructure 'options' as it is undefined")
  | Some given => render style width height given
  end.

End RenderJS.

(* ================================================================= *)
(** ** Vocabulary of the properties *)

(** Every character of [s] is in the class. *)
Fixpoint all_chars (cls : ascii -> bool) (s : string) : bool :=
  match s with
  | EmptyString => true
  | String c s' => cls c && all_chars cls s'
  end.


(** The text before the first [sep], the whole string when there is none:
    element 0 of [s.split(sep)]. *)
Definition before (sep s : string) : string :=
  match cut sep s with
  | None => s
  | Some (a, _) => a
  end.

(** The input after a run ends, or goes on with a character outside the
    class: nothing longer can be taken. *)
Definition stops (cls : ascii -> bool) (r : string) : bool :=
  match r with
  | EmptyString => true
  | String c _ => negb (cls c)
  end.

(** A number within [lo, hi]. *)
Definition inside (lo hi : Z) (n : number) : bool :=
  match n with
  | NaN => false
  | Num q => Qle_bool (inject_Z lo) q && Qle_bool q (inject_Z hi)
  end.

(** A number below [lo] or above [hi]. *)
Definition outside (lo hi : Z) (n : number) : bool :=
  match n with
  | NaN => false
  | Num q => negb (Qle_bool (inject_Z lo) q) || negb (Qle_bool q (inject_Z hi))
  end.

(** A call with a parameter the specification lists as invalid: no style, a
    center that is not a pair or has a coordinate out of range, a zoom out
    of range, bounds that are not a quadruple. *)
Definition malformed (style : option json) (options : options) : bool :=
  negb (truthy_opt truthy style)
  || match center options with
     | None => false
     | Some c =>
         negb (List.length c =? 2)%nat
         || outside (-180) 180 (nth 0 c NaN)
         || outside (-90) 90 (nth 1 c NaN)
     end
  || match zoom options with
     | None => false
     | Some zm => outside 0 22 zm
     end
  || match bounds options with
     | None => false
     | Some b => negb (List.length b =? 4)%nat
     end.

(** A call all of whose parameters are present where required and in
    range. *)
Definition well_formed (style : option json) (width height : number)
           (options : options) : bool :=
  truthy_opt truthy style
  && number_truthy width && number_truthy height
  && match center options with
     | None => true
     | Some [lng; lat] => inside (-180) 180 lng && inside (-90) 90 lat
     | Some _ => false
     end
  && match zoom options with
     | None => true
     | Some zm => inside 0 22 zm
     end
  && match bounds options with
     | None => true
     | Some b => (List.length b =? 4)%nat
     end.

(** The checks of [render], and the exception each one throws. *)
Inductive check : Type :=
| StylePresent | SizeNonZero | CenterIsPair | LongitudeInRange
| LatitudeInRange | ZoomInRange | BoundsIsQuadruple.

Inductive raises : check -> jsexn -> Prop :=
| raises_style : raises StylePresent style_required
| raises_size : raises SizeNonZero size_required
| raises_center c : raises CenterIsPair (center_malformed c)
| raises_longitude n : raises LongitudeInRange (longitude_outside n)
| raises_latitude n : raises LatitudeInRange (latitude_outside n)
| raises_zoom n : raises ZoomInRange (zoom_outside n)
| raises_bounds b : raises BoundsIsQuadruple (bounds_malformed b).

(* ================================================================= *)
(** ** Runs on concrete inputs: the runtime, the libraries and the calls *)

(** The double quote. *)
Definition dq : string := String "034"%char "".

(** The body [{"message":"not found"}]. *)
Definition not_found_body : string :=
  "{" ++ dq ++ "message" ++ dq ++ ":" ++ dq ++ "not found" ++ dq ++ "}".

(** A stand-in for [JSON.parse] that knows this one body. *)
Definition parse_known (body : string) : jsexn + json :=
  if String.eqb body not_found_body
  then inr (JObj [("message", JStr "not found")])
  else inl (Error [Txt "Unexpected token in JSON"]).

(** A stand-in for [geoViewport.viewport]: every box fits at zoom 5 around
    the origin. *)
Definition fit_at_origin (box dimensions : list number) : viewport :=
  {| vp_center := [num_of_Z 0; num_of_Z 0]; vp_zoom := num_of_Z 5 |}.

(** An archive that holds the single tile 5/10/12. *)
Definition parks_archive : archive :=
  {| getInfo_result :=
       inr {| info_minzoom := Some (JNum (num_of_Z 0));
              info_maxzoom := Some (JNum (num_of_Z 14));
              info_center := None;
              info_bounds := None |};
     getTile_result := fun z x y =>
       if String.eqb z "5" && String.eqb x "10" && String.eqb y "12"
       then inr "tile-5-10-12"
       else inl (Error [Txt "Tile does not exist"]) |}.

(** Response headers with an expiry date and an empty entity tag. *)
Definition sample_headers (name : string) : option string :=
  if String.eqb name "expires" then Some "Thu, 01 Jan 2026 00:00:00 GMT"
  else if String.eqb name "etag" then Some ""
  else None.

(** A runtime with one archive, one remote tile, and an engine that reports
    a failed render pass in a later tick. *)
Definition sample_world : world :=
  {| open_archive := fun file =>
       if String.eqb file "/data/tiles/parks.mbtiles" then inr parks_archive
       else inl (Error [Txt "SQLITE_CANTOPEN: unable to open database file"]);
     http_get := fun u =>
       if String.eqb u "https://tiles.example/3/1/2.png"
       then inr ({| statusCode := 200; headers := sample_headers |}, "png-bytes")
       else inr ({| statusCode := 404; headers := fun _ => None |}, not_found_body);
     engine_render := fun _ => inl (Error [Txt "render pass failed"]);
     engine_sync := false;
     encode_png := fun raw _ _ => Encoded ("PNG:" ++ raw) |}.

(** The same runtime with an engine whose render pass succeeds. *)
Definition working_world : world :=
  {| open_archive := open_archive sample_world;
     http_get := http_get sample_world;
     engine_render := fun _ => inr "rgba";
     engine_sync := false;
     encode_png := encode_png sample_world |}.

Definition sample_style : option json :=
  Some (JObj [("version", JNum (num_of_Z 8))]).

Definition box10 : list number :=
  [num_of_Z (-10); num_of_Z (-10); num_of_Z 10; num_of_Z 10].

(** Bounds and a center, no zoom. *)
Definition bounds_and_center : options :=
  {| bounds := Some box10; tilePath := None;
     center := Some [num_of_Z 5; num_of_Z 5]; zoom := None |}.

(** Center and zoom, no bounds. *)
Definition center_and_zoom : options :=
  {| bounds := None; tilePath := None;
     center := Some [num_of_Z 0; num_of_Z 0]; zoom := Some (num_of_Z 1) |}.

(** A tile request for a remote URL. *)
Definition remote_tile_request : tile_request :=
  {| url := "https://tiles.example/3/1/2.png"; kind := 3 |}.

(** A longitude of 200 degrees. *)
Definition far_east : options :=
  {| bounds := None; tilePath := None;
     center := Some [num_of_Z 200; num_of_Z 0]; zoom := Some (num_of_Z 1) |}.

(** Whether a call fails a check, taken by itself. *)
Definition check_fails (c : check) (style : option json)
           (width height : number) (options : options) : bool :=
  match c with
  | StylePresent => negb (truthy_opt truthy style)
  | SizeNonZero => negb (number_truthy width && number_truthy height)
  | CenterIsPair =>
      match center options with
      | None => false
      | Some c => negb (List.length c =? 2)%nat
      end
  | LongitudeInRange =>
      match center options with
      | None => false
      | Some c => outside (-180) 180 (nth 0 c NaN)
      end
  | LatitudeInRange =>
      match center options with
      | None => false
      | Some c => outside (-90) 90 (nth 1 c NaN)
      end
  | ZoomInRange =>
      match zoom options with
      | None => false
      | Some zm => outside 0 22 zm
      end
  | BoundsIsQuadruple =>
      match bounds options with
      | None => false
      | Some b => negb (List.length b =? 4)%nat
      end
  end.

(** The checks in the order of the source. *)
Definition checks_in_order : list check :=
  [StylePresent; SizeNonZero; CenterIsPair; LongitudeInRange;
   LatitudeInRange; ZoomInRange; BoundsIsQuadruple].

(** The exception of a check, with the value it reports: the center, the
    longitude, the latitude, the zoom or the bounds of the call. *)
Definition exception_of (c : check) (options : options) : jsexn :=
  let position := match center options with Some p => p | None => [] end in
  match c with
  | StylePresent => style_required
  | SizeNonZero => size_required
  | CenterIsPair => center_malformed position
  | LongitudeInRange => longitude_outside (nth 0 position NaN)
  | LatitudeInRange => latitude_outside (nth 1 position NaN)
  | ZoomInRange =>
      zoom_outside (match zoom options with Some zm => zm | None => NaN end)
  | BoundsIsQuadruple =>
      bounds_malformed (match bounds options with Some b => b | None => [] end)
  end.

(** The first check a call fails, if any. *)
Definition first_failing (style : option json) (width height : number)
           (options : options) : option check :=
  find (fun c => check_fails c style width height options) checks_in_order.

(** An event that is a call of the HTTP client. *)
Definition is_http_event (ev : event) : bool :=
  match ev with
  | http_requested _ => true
  | _ => false
  end.

(** An event that is a call into the archive store. *)
Definition is_archive_event (ev : event) : bool :=
  match ev with
  | archive_opened _ | info_queried | tile_queried _ _ _ => true
  | _ => false
  end.

(** None of the events satisfies [p]. *)
Definition never (p : event -> bool) (t : list event) : bool :=
  forallb (fun ev => negb (p ev)) t.

(** A remote service that answers every request with a 502 and an HTML
    page. *)
Definition bad_gateway_world : world :=
  {| open_archive := open_archive sample_world;
     http_get := fun _ =>
       inr ({| statusCode := 502; headers := fun _ => None |},
            "<html>Bad Gateway</html>");
     engine_render := engine_render sample_world;
     engine_sync := false;
     encode_png := encode_png sample_world |}.

(** The same runtime with an encoder that, like the image library, refuses
    a width or height that is not above zero. *)
Definition checking_encoder_world : world :=
  {| open_archive := open_archive sample_world;
     http_get := http_get sample_world;
     engine_render := fun _ => inr "rgba";
     engine_sync := false;
     encode_png := fun raw w h =>
       if num_gt w (num_of_Z 0) && num_gt h (num_of_Z 0)
       then Encoded ("PNG:" ++ raw)
       else Refused (Error [Txt "Expected positive integer for raw dimensions"]) |}.

(** A box across the antimeridian: its east is west of its west. *)
Definition antimeridian_box : list number :=
  [num_of_Z 170; num_of_Z (-10); num_of_Z (-170); num_of_Z 10].

(** Bounds across the antimeridian and nothing else. *)
Definition antimeridian_bounds : options :=
  {| bounds := Some antimeridian_box; tilePath := None;
     center := None; zoom := None |}.

(** A stand-in for [geoViewport.viewport] on such a box: the origin and no
    usable zoom. *)
Definition fit_without_zoom (box dimensions : list number) : viewport :=
  {| vp_center := [num_of_Z 0; num_of_Z 0]; vp_zoom := NaN |}.

(** A center whose longitude is not a number. *)
Definition nan_longitude : options :=
  {| bounds := None; tilePath := None;
     center := Some [NaN; num_of_Z 0]; zoom := Some (num_of_Z 1) |}.

(** A tile request for an archive. *)
Definition local_tile_request : tile_request :=
  {| url := "mbtiles://parks/5/10/12"; kind := 3 |}.

(** A metadata request for an archive. *)
Definition local_source_request : tile_request :=
  {| url := "mbtiles://parks"; kind := 2 |}.

(* ================================================================= *)
(** ** Examples *)

Example resolve_parks_name :
  resolveNamefromURL "mbtiles://parks/5/10/12" = inr "parks".
Proof. reflexivity. Qed.

Example resolve_parks_file :
  resolveMBTilesURL (Some "/data/tiles/") "mbtiles://parks/5/10/12"
  = inr "/data/tiles/parks.mbtiles".
Proof. reflexivity. Qed.

Example match_parks :
  match_TILE_REGEXP "mbtiles://parks/5/10/12"
  = Some ["mbtiles://parks/5/10/12"; "parks"; "5"; "10"; "12"].
Proof. reflexivity. Qed.

Example match_backtracks_to_later_start :
  match_TILE_REGEXP "mbtiles://mbtiles://a/1/2/3x"
  = Some ["mbtiles://a/1/2/3"; "a"; "1"; "2"; "3"].
Proof. reflexivity. Qed.

Example match_short_url : match_TILE_REGEXP "mbtiles://parks/5/10" = None.
Proof. reflexivity. Qed.

Example tile_present :
  trace sample_world
    (request parse_known (Some "/data/tiles/")
             {| url := "mbtiles://parks/5/10/12"; kind := 3 |} engine_callback)
  = [archive_opened "/data/tiles/parks.mbtiles";
     tile_queried "5" "10" "12";
     callback_called None
       (Some {| modified := None; expires := None; etag := None;
                data := Some (Raw "tile-5-10-12") |})].
Proof. reflexivity. Qed.

Example archive_missing :
  trace sample_world
    (request parse_known (Some "/data/tiles/")
             {| url := "mbtiles://rivers/1/2/3"; kind := 3 |} engine_callback)
  = [archive_opened "/data/tiles/rivers.mbtiles";
     callback_called
       (Some (Error [Txt "SQLITE_CANTOPEN: unable to open database file"])) None].
Proof. reflexivity. Qed.

Example tile_url_without_coordinates :
  trace sample_world
    (request parse_known (Some "/data/tiles/")
             {| url := "mbtiles://parks"; kind := 3 |} engine_callback)
  = [console_error (TypeError "Cannot read property 'slice' of null");
     callback_called (Some (TypeError "Cannot read property 'slice' of null")) None].
Proof. reflexivity. Qed.

Example source_metadata :
  trace sample_world
    (request parse_known (Some "/data/tiles/")
             {| url := "mbtiles://parks"; kind := 2 |} engine_callback)
  = [archive_opened "/data/tiles/parks.mbtiles";
     info_queried;
     callback_called None
       (Some {| modified := None; expires := None; etag := None;
                data := Some (Stringified
                  {| tj_tilejson := "1.0.0";
                     tj_tiles := ["mbtiles://parks/{z}/{x}/{y}"];
                     tj_minzoom := Some (JNum (num_of_Z 0));
                     tj_maxzoom := Some (JNum (num_of_Z 14));
                     tj_center := None;
                     tj_bounds := None |}) |})].
Proof. reflexivity. Qed.

Example remote_source_metadata_unhandled :
  trace sample_world
    (request parse_known None
             {| url := "https://tiles.example/source.json"; kind := 2 |}
             engine_callback)
  = [].
Proof. reflexivity. Qed.

Example base_directory_without_separator :
  resolveMBTilesURL (Some "/data/tiles") "mbtiles://parks/5/10/12"
  = inr "/data/tilesparks.mbtiles".
Proof. reflexivity. Qed.

Example render_succeeds :
  new_Promise working_world
    (render fit_at_origin sample_style None None center_and_zoom)
  = Fulfilled "PNG:rgba".
Proof. reflexivity. Qed.

Example render_from_bounds :
  trace working_world
    (render fit_at_origin sample_style (Some (num_of_Z 512)) (Some (num_of_Z 512))
            {| bounds := Some box10; tilePath := None;
               center := None; zoom := None |})
  = [map_created None; map_loaded sample_style;
     map_rendered {| p_zoom := Some (Num (Qmax (5 - 1) 0));
                     p_center := Some [num_of_Z 0; num_of_Z 0];
                     p_height := num_of_Z 512; p_width := num_of_Z 512 |};
     image_encoded (num_of_Z 512) (num_of_Z 512);
     promise_resolved "PNG:rgba"].
Proof. reflexivity. Qed.

Example message_style :
  validation None (num_of_Z 1024) (num_of_Z 1024) center_and_zoom
  = Some style_required.
Proof. reflexivity. Qed.

Example message_size :
  validation sample_style (num_of_Z 1024) (num_of_Z 0) center_and_zoom
  = Some size_required.
Proof. reflexivity. Qed.

Example message_center :
  validation sample_style (num_of_Z 1024) (num_of_Z 1024)
    {| bounds := None; tilePath := None;
       center := Some [num_of_Z 1; num_of_Z 2; num_of_Z 3]; zoom := None |}
  = Some (center_malformed [num_of_Z 1; num_of_Z 2; num_of_Z 3]).
Proof. reflexivity. Qed.

Example message_longitude :
  validation sample_style (num_of_Z 1024) (num_of_Z 1024) far_east
  = Some (longitude_outside (num_of_Z 200)).
Proof. reflexivity. Qed.

Example message_latitude :
  validation sample_style (num_of_Z 1024) (num_of_Z 1024)
    {| bounds := None; tilePath := None;
       center := Some [num_of_Z 0; num_of_Z (-91)]; zoom := None |}
  = Some (latitude_outside (num_of_Z (-91))).
Proof. reflexivity. Qed.

Example message_zoom :
  validation sample_style (num_of_Z 1024) (num_of_Z 1024)
    {| bounds := None; tilePath := None;
       center := None; zoom := Some (num_of_Z 23) |}
  = Some (zoom_outside (num_of_Z 23)).
Proof. reflexivity. Qed.

Example message_bounds :
  validation sample_style (num_of_Z 1024) (num_of_Z 1024)
    {| bounds := Some [num_of_Z 0; num_of_Z 0; num_of_Z 1]; tilePath := None;
       center := None; zoom := None |}
  = Some (bounds_malformed [num_of_Z 0; num_of_Z 0; num_of_Z 1]).
Proof. reflexivity. Qed.

Example not_a_number_center_passes :
  validation sample_style (num_of_Z 1024) (num_of_Z 1024)
    {| bounds := None; tilePath := None;
       center := Some [NaN; NaN]; zoom := Some (num_of_Z 1) |}
  = None.
Proof. reflexivity. Qed.

(* ================================================================= *)
(** ** Facts about strings and the pattern *)

Lemma append_assoc (a b c : string) : (a ++ b) ++ c = a ++ (b ++ c).
Proof. induction a as [|ch a IH]; simpl; [reflexivity | now rewrite IH]. Qed.

Lemma append_empty_r (a : string) : a ++ "" = a.
Proof. induction a as [|ch a IH]; simpl; [reflexivity | now rewrite IH]. Qed.


Lemma startsWith_inv (p s : string) :
  startsWith p s = true -> exists r, s = p ++ r.
Proof.
  revert s; induction p as [|c p IH]; intros s H; simpl in *.
  - now exists s.
  - destruct s as [|d s]; [discriminate|].
    apply andb_true_iff in H as [Hc Hs].
    apply Ascii.eqb_eq in Hc; subst d.
    destruct (IH _ Hs) as [r ->]. now exists r.
Qed.

Lemma split_from_head (fuel : nat) (sep s : string) :
  hd "" (split_from (S fuel) sep s) = before sep s.
Proof.
  unfold before; simpl. destruct (cut sep s) as [[a b]|]; reflexivity.
Qed.

Lemma split_from_nonempty (fuel : nat) (sep s : string) :
  exists a l, split_from fuel sep s = a :: l.
Proof.
  destruct fuel; simpl; [now eexists; eexists|].
  destruct (cut sep s) as [[a b]|]; now eexists; eexists.
Qed.

Lemma split_from_S (fuel : nat) (sep s : string) :
  split_from (S fuel) sep s
  = match cut sep s with
    | None => [s]
    | Some (a, b) => a :: split_from fuel sep b
    end.
Proof. reflexivity. Qed.

(** Element 1 of [s.split(sep)] when [sep] occurs in [s]. *)
Lemma str_split_second (sep s a b : string) :
  cut sep s = Some (a, b) ->
  string_truthy s = true ->
  nth_error (str_split sep s) 1 = Some (before sep b).
Proof.
  intros Hcut Hs. unfold str_split.
  destruct s as [|c s]; [discriminate|].
  cbn [String.length]. rewrite split_from_S, Hcut. cbn [nth_error].
  destruct (split_from_nonempty (S (String.length s)) sep b) as (x & l & E).
  pose proof (split_from_head (String.length s) sep b) as Hh.
  rewrite E in *. cbn [hd] in Hh. now subst x.
Qed.

(** The name of a URL of the scheme is always defined: it is the text after
    ["mbtiles://"], up to the next ["://"] and then up to the next ["/"]. *)
Lemma resolveNamefromURL_scheme (rest : string) :
  resolveNamefromURL ("mbtiles://" ++ rest)
  = inr (before "/" (before "://" rest)).
Proof.
  unfold resolveNamefromURL.
  rewrite (str_split_second "://" _ "mbtiles" rest) by reflexivity.
  unfold str_split. now rewrite split_from_head.
Qed.

Lemma resolveNamefromURL_local (url : string) :
  startsWith "mbtiles://" url = true -> exists name, resolveNamefromURL url = inr name.
Proof.
  intros H. destruct (startsWith_inv _ _ H) as [rest ->].
  eexists. apply resolveNamefromURL_scheme.
Qed.

Lemma before_slash_cons (c : ascii) (s : string) :
  not_slash c = true -> before "/" (String c s) = String c (before "/" s).
Proof.
  unfold not_slash, before; intros H.
  cbn [cut startsWith].
  rewrite Ascii.eqb_sym. destruct (Ascii.eqb c "/"%char); [discriminate|].
  cbn [andb]. destruct (cut "/" s) as [[a b]|]; reflexivity.
Qed.

Lemma before_scheme_cons (c : ascii) (s : string) :
  startsWith "://" (String c s) = false ->
  before "://" (String c s) = String c (before "://" s).
Proof.
  unfold before; intros H.
  cbn [cut]. rewrite H.
  destruct (cut "://" s) as [[a b]|]; reflexivity.
Qed.

(** The service name is read off correctly when it is followed by a slash and
    then by something that is not a second slash. *)
Lemma name_of_service (service tail : string) :
  all_chars not_slash service = true ->
  startsWith "/" tail = false ->
  before "/" (before "://" (service ++ String "/" tail)) = service.
Proof.
  intros Hs Ht. induction service as [|c service IH].
  - cbn [append]. rewrite before_scheme_cons by reflexivity. reflexivity.
  - cbn [all_chars] in Hs. apply andb_true_iff in Hs as [Hc Hs].
    cbn [append]. rewrite before_scheme_cons.
    + rewrite before_slash_cons by assumption. now rewrite IH.
    + destruct service as [|d service].
      * destruct tail as [|t tail]; cbn [startsWith append] in *.
        -- now rewrite !andb_false_r.
        -- rewrite Ht. now rewrite !andb_false_r.
      * cbn [all_chars] in Hs. apply andb_true_iff in Hs as [Hd _].
        unfold not_slash in Hd. cbn [startsWith append].
        rewrite (Ascii.eqb_sym "/"%char d).
        destruct (Ascii.eqb d "/"%char); [discriminate|].
        now rewrite andb_false_r.
Qed.

Lemma re_lit_app (l r : string) : re_lit l (l ++ r) = Some r.
Proof.
  induction l as [|c l IH]; cbn [re_lit append]; [now destruct r|].
  now rewrite Ascii.eqb_refl.
Qed.

Lemma re_lit_inv (l s r : string) : re_lit l s = Some r -> s = l ++ r.
Proof.
  revert s; induction l as [|c l IH]; intros s H.
  - destruct s; cbn [re_lit] in H; now inversion H.
  - destruct s as [|d s]; cbn [re_lit] in H; [discriminate|].
    destruct (Ascii.eqb c d) eqn:E; [|discriminate].
    apply Ascii.eqb_eq in E; subst d. cbn [append]. f_equal. now apply IH.
Qed.

Lemma re_plus_stops {A} (cls : ascii -> bool) (r acc : string)
      (k : string -> string -> option A) :
  stops cls r = true -> re_plus cls r acc k = None.
Proof.
  destruct r as [|c r]; cbn [stops re_plus]; [reflexivity|].
  now destruct (cls c).
Qed.

(** A greedy group takes the whole run when the rest of the pattern accepts
    what follows it. *)
Lemma re_plus_longest {A} (cls : ascii -> bool) (g r : string)
      (k : string -> string -> option A) (v : A) :
  forall acc,
  string_truthy g = true ->
  all_chars cls g = true ->
  stops cls r = true ->
  k (acc ++ g) r = Some v ->
  re_plus cls (g ++ r) acc k = Some v.
Proof.
  induction g as [|c g IH]; intros acc Hne Hall Hstop Hk; [discriminate|].
  cbn [all_chars] in Hall. apply andb_true_iff in Hall as [Hc Hall].
  cbn [append re_plus]. rewrite Hc.
  destruct g as [|d g].
  - cbn [append]. rewrite re_plus_stops by assumption. exact Hk.
  - rewrite (IH (acc ++ String c "")); try reflexivity; try assumption.
    rewrite append_assoc. exact Hk.
Qed.

(** Whatever a group ends up capturing, it is a prefix of the input and the
    rest of the pattern accepted the remainder. *)
Lemma re_plus_inv {A} (cls : ascii -> bool) (s : string)
      (k : string -> string -> option A) (v : A) :
  forall acc,
  re_plus cls s acc k = Some v ->
  exists g r, s = g ++ r /\ k (acc ++ g) r = Some v.
Proof.
  induction s as [|c s IH]; intros acc H; cbn [re_plus] in H; [discriminate|].
  destruct (cls c); [|discriminate].
  destruct (re_plus cls s (acc ++ String c "") k) as [w|] eqn:E.
  - inversion H; subst w. destruct (IH _ E) as (g & r & -> & Hk).
    exists (String c g), r. split; [reflexivity|].
    rewrite append_assoc in Hk. exact Hk.
  - exists (String c ""), s. split; [reflexivity | exact H].
Qed.

(** The pattern on a URL of the form [mbtiles://<service>/<z>/<x>/<y>],
    possibly followed by something that does not start with a digit. *)
Lemma TILE_REGEXP_here_form (service z x y tail : string) :
  string_truthy service = true -> all_chars not_slash service = true ->
  string_truthy z = true -> all_chars digit z = true ->
  string_truthy x = true -> all_chars digit x = true ->
  string_truthy y = true -> all_chars digit y = true ->
  stops digit tail = true ->
  TILE_REGEXP_here
    ("mbtiles://" ++ service ++ "/" ++ z ++ "/" ++ x ++ "/" ++ y ++ tail)
  = Some ["mbtiles://" ++ service ++ "/" ++ z ++ "/" ++ x ++ "/" ++ y;
          service; z; x; y].
Proof.
  intros Hs1 Hs2 Hz1 Hz2 Hx1 Hx2 Hy1 Hy2 Ht.
  unfold TILE_REGEXP_here. rewrite re_lit_app.
  apply re_plus_longest; try assumption; [reflexivity|].
  rewrite re_lit_app.
  apply re_plus_longest; try assumption; [reflexivity|].
  rewrite re_lit_app.
  apply re_plus_longest; try assumption; [reflexivity|].
  rewrite re_lit_app.
  apply re_plus_longest; try assumption.
  reflexivity.
Qed.

Lemma match_TILE_REGEXP_here (s : string) (m : list string) :
  TILE_REGEXP_here s = Some m -> match_TILE_REGEXP s = Some m.
Proof.
  intros H. destruct s; cbn [match_TILE_REGEXP]; now rewrite H.
Qed.



(** A match array always has the whole match and the four groups. *)
Lemma TILE_REGEXP_here_shape (s : string) (m : list string) :
  TILE_REGEXP_here s = Some m -> exists whole service z x y, m = [whole; service; z; x; y].
Proof.
  unfold TILE_REGEXP_here. intros H.
  destruct (re_lit "mbtiles://" s) as [r0|]; [|discriminate].
  apply re_plus_inv in H as (g1 & r1 & _ & H).
  destruct (re_lit "/" r1) as [r2|]; [|discriminate].
  apply re_plus_inv in H as (g2 & r3 & _ & H).
  destruct (re_lit "/" r3) as [r4|]; [|discriminate].
  apply re_plus_inv in H as (g3 & r5 & _ & H).
  destruct (re_lit "/" r5) as [r6|]; [|discriminate].
  apply re_plus_inv in H as (g4 & r7 & _ & H).
  inversion H. now repeat eexists.
Qed.

Lemma match_TILE_REGEXP_shape (url : string) (m : list string) :
  match_TILE_REGEXP url = Some m -> exists whole service z x y, m = [whole; service; z; x; y].
Proof.
  induction url as [|c url IH]; cbn [match_TILE_REGEXP]; intros H.
  - destruct (TILE_REGEXP_here "") eqn:E; [|discriminate].
    inversion H; subst. now apply TILE_REGEXP_here_shape in E.
  - destruct (TILE_REGEXP_here (String c url)) eqn:E.
    + inversion H; subst. now apply TILE_REGEXP_here_shape in E.
    + now apply IH.
Qed.

Lemma digit_not_slash (c : ascii) : digit c = true -> Ascii.eqb "/"%char c = false.
Proof.
  intros H. destruct (Ascii.eqb_spec "/"%char c) as [<-|]; [discriminate | reflexivity].
Qed.

Lemma digits_no_leading_slash (z tail : string) :
  string_truthy z = true -> all_chars digit z = true ->
  startsWith "/" (z ++ tail) = false.
Proof.
  destruct z as [|d z]; [discriminate|]. intros _ H.
  cbn [all_chars] in H. apply andb_true_iff in H as [Hd _].
  cbn [append startsWith]. now rewrite (digit_not_slash _ Hd).
Qed.


(* ================================================================= *)
(** ** Properties *)

Section Properties.

Variable geoViewport_viewport : list number -> list number -> viewport.
Variable JSON_parse : string -> jsexn + json.

(** *** URL resolver *)


(** *** Request dispatcher and local archive adapter *)

Lemma request_tile_local (tilePath : option string) (u : string) (callback : callback_t) :
  startsWith "mbtiles://" u = true ->
  request JSON_parse tilePath {| url := u; kind := 3 |} callback
  = try_catch (getTile tilePath u callback) (request_handler callback).
Proof.
  intros H. unfold request. cbn [url kind]. rewrite H. reflexivity.
Qed.

Lemma resolveMBTilesURL_local (tilePath : option string) (u : string) :
  startsWith "mbtiles://" u = true ->
  exists file, resolveMBTilesURL tilePath u = inr file.
Proof.
  intros H. destruct (resolveNamefromURL_local _ H) as [name Hn].
  unfold resolveMBTilesURL. rewrite Hn. now eexists.
Qed.

(** C3.  A tile request for a local-archive URL.  When the archive named by
    the URL fails to open, the callback is called once, with an error (the
    error of the open call whenever the URL carries a tile coordinate).
    When the archive opens and the lookup of the tile fails, the diagnostic
    naming z, x, y and the archive path is logged and the callback is then
    called with no error and the empty object: the two failures differ in
    the first argument of the callback, and the lookup failure raises
    nothing. *)
Theorem local_tile_open_failure_is_error_lookup_failure_is_empty
        (W : world) (tilePath : option string) (u : string) :
  startsWith "mbtiles://" u = true ->
  let run := trace W (request JSON_parse tilePath {| url := u; kind := 3 |}
                              engine_callback) in
  exists file,
    resolveMBTilesURL tilePath u = inr file
    /\ (forall err,
          open_archive W file = inl err ->
          exists e, callbacks run = [callback_called (Some e) None]
                    /\ (match_TILE_REGEXP u <> None ->
                        e = err /\ run = [archive_opened file;
                                          callback_called (Some err) None]))
    /\ (forall mbtiles whole service z x y tileErr,
          open_archive W file = inr mbtiles ->
          match_TILE_REGEXP u = Some [whole; service; z; x; y] ->
          getTile_result mbtiles z x y = inl tileErr ->
          run = [archive_opened file;
                 tile_queried z x y;
                 console_log ("error fetching tile: z:" ++ z ++ " x:" ++ x
                              ++ " y:" ++ y ++ " from " ++ file);
                 callback_called None (Some empty_response)]).
Proof.
  intros Hlocal run.
  destruct (resolveMBTilesURL_local tilePath u Hlocal) as [file Hfile].
  exists file. split; [exact Hfile|].
  unfold run, trace. rewrite request_tile_local by assumption.
  unfold getTile. rewrite Hfile.
  destruct (match_TILE_REGEXP u) as [m|] eqn:Hm.
  - destruct (match_TILE_REGEXP_shape _ _ Hm) as (whole & service & z & x & y & ->).
    cbn [List.length Nat.sub slice skipn firstn nth try_catch exec fst].
    split.
    + intros err Hopen. rewrite Hopen. exists err.
      cbn. split; [reflexivity|]. intros _. split; reflexivity.
    + intros mbtiles whole' service' z' x' y' tileErr Hopen Heq Htile.
      inversion Heq; subst. rewrite Hopen. cbn [exec fst snd later].
      rewrite Htile. reflexivity.
  - cbn [try_catch]. split.
    + intros err _. eexists. split; [reflexivity|]. intros Hc. now elim Hc.
    + intros; discriminate.
Qed.

Lemma getTileJSON_local (tilePath : option string) (u : string) (callback : callback_t) :
  startsWith "mbtiles://" u = true ->
  exists file after_open,
    resolveMBTilesURL tilePath u = inr file
    /\ getTileJSON tilePath u callback = MBTiles_new file after_open.
Proof.
  intros H. destruct (resolveNamefromURL_local _ H) as [name Hn].
  unfold getTileJSON, resolveMBTilesURL. rewrite Hn.
  eexists; eexists; split; reflexivity.
Qed.

(** C5.  Routing of a request by kind and URL scheme: metadata (kind 2) for
    a local-archive URL goes to [getTileJSON] and for any other URL does
    nothing; a tile (kind 3) for a local-archive URL goes to [getTile] and
    for any other URL to [getRemoteTile]; any other kind does nothing.  An
    exception thrown by the routed call before it returns is logged and
    passed to the callback as its error, and no exception leaves the
    dispatcher. *)
Theorem request_routes_by_kind_and_scheme
        (W : world) (tilePath : option string) (req : tile_request) :
  let dispatched := request JSON_parse tilePath req engine_callback in
  let isMBTiles := startsWith "mbtiles://" (url req) in
  (kind req = 2%Z -> isMBTiles = true ->
     dispatched = getTileJSON tilePath (url req) engine_callback)
  /\ (kind req = 2%Z -> isMBTiles = false ->
        dispatched = Done /\ callbacks (trace W dispatched) = [])
  /\ (kind req = 3%Z -> isMBTiles = true ->
        dispatched = try_catch (getTile tilePath (url req) engine_callback)
                               (request_handler engine_callback)
        /\ (match_TILE_REGEXP (url req) <> None ->
            dispatched = getTile tilePath (url req) engine_callback)
        /\ (forall e, getTile tilePath (url req) engine_callback = Throw e ->
            trace W dispatched
            = [console_error e; callback_called (Some e) None]))
  /\ (kind req = 3%Z -> isMBTiles = false ->
        dispatched = getRemoteTile JSON_parse (url req) engine_callback)
  /\ (kind req <> 2%Z -> kind req <> 3%Z ->
        dispatched = Done /\ callbacks (trace W dispatched) = [])
  /\ snd (exec W dispatched) = None.
Proof.
  intros dispatched isMBTiles.
  destruct req as [u k]. cbn [url kind] in *.
  assert (Hdef : dispatched
    = try_catch
        (if (k =? 2)%Z then
           (if isMBTiles then getTileJSON tilePath u engine_callback else Done)
         else if (k =? 3)%Z then
           (if isMBTiles then getTile tilePath u engine_callback
            else getRemoteTile JSON_parse u engine_callback)
         else Done)
        (request_handler engine_callback)) by reflexivity.
  repeat apply conj.
  - intros -> Hl. rewrite Hdef, Hl. cbn [Z.eqb Pos.eqb].
    destruct (getTileJSON_local tilePath u engine_callback Hl) as (f & a & _ & ->).
    reflexivity.
  - intros -> Hl. rewrite Hdef, Hl. split; reflexivity.
  - intros -> Hl. rewrite Hdef, Hl. cbn [Z.eqb Pos.eqb]. repeat apply conj.
    + reflexivity.
    + intros Hm. unfold getTile.
      destruct (match_TILE_REGEXP u) as [m|]; [|now elim Hm].
      destruct (resolveMBTilesURL_local tilePath u Hl) as [file ->].
      reflexivity.
    + intros e ->. reflexivity.
  - intros -> Hl. rewrite Hdef, Hl. reflexivity.
  - intros H2 H3. rewrite Hdef.
    apply Z.eqb_neq in H2, H3. rewrite H2, H3. split; reflexivity.
  - rewrite Hdef.
    destruct (k =? 2)%Z; [|destruct (k =? 3)%Z]; destruct isMBTiles;
      try reflexivity.
    + unfold getTileJSON.
      destruct (resolveMBTilesURL tilePath u); [reflexivity|].
      destruct (resolveNamefromURL u); reflexivity.
    + unfold getTile.
      destruct (match_TILE_REGEXP u); [|reflexivity].
      destruct (resolveMBTilesURL tilePath u); reflexivity.
Qed.

(** *** Remote fetch adapter *)

(** C8 (as amended).  A transport error is passed to the callback as it is.
    A response whose status is not 200 and whose body parses to an object
    with a string [message] yields an error with that message.  A response
    with status 200 yields a result whose data is the body, and whose
    [modified], [expires] and [etag] are set exactly for the headers of
    those names that are present with a non-empty value: the two dates are
    built from the header text, the etag is the header text. *)
Theorem remote_tile_error_and_header_mapping (W : world) (u : string) :
  let run := trace W (getRemoteTile JSON_parse u engine_callback) in
  (forall err,
     http_get W u = inl err ->
     run = [http_requested u; callback_called (Some err) None])
  /\ (forall res body fields m,
        http_get W u = inr (res, body) ->
        statusCode res <> 200%Z ->
        JSON_parse body = inr (JObj fields) ->
        assoc "message" fields = Some (JStr m) ->
        run = [http_requested u; callback_called (Some (Error [Txt m])) None])
  /\ (forall res body,
        http_get W u = inr (res, body) ->
        statusCode res = 200%Z ->
        exists r,
          run = [http_requested u; callback_called None (Some r)]
          /\ data r = Some (Raw body)
          /\ (forall d, modified r = Some d <->
                exists v, headers res "modified" = Some v
                          /\ string_truthy v = true /\ d = Date_of v)
          /\ (forall d, expires r = Some d <->
                exists v, headers res "expires" = Some v
                          /\ string_truthy v = true /\ d = Date_of v)
          /\ (forall v, etag r = Some v <->
                headers res "etag" = Some v /\ string_truthy v = true)).
Proof.
  intros run. unfold run, trace, getRemoteTile. cbn [exec fst].
  repeat apply conj.
  - intros err ->. reflexivity.
  - intros res body fields m -> Hs Hp Hm.
    apply Z.eqb_neq in Hs. rewrite Hs, Hp. cbn [get_prop]. rewrite Hm.
    reflexivity.
  - intros res body -> Hs. rewrite Hs. cbn [Z.eqb Pos.eqb].
    eexists. split; [reflexivity|]. cbn [data modified expires etag].
    repeat apply conj; [reflexivity | | | ].
    + intros d. destruct (headers res "modified") as [v|]; cbn.
      * destruct (string_truthy v) eqn:Hv; split.
        -- intros [= <-]. now exists v.
        -- intros (v' & [= <-] & _ & ->). reflexivity.
        -- discriminate.
        -- intros (v' & [= <-] & Hv' & _). congruence.
      * split; [discriminate | intros (v' & Hv' & _); discriminate].
    + intros d. destruct (headers res "expires") as [v|]; cbn.
      * destruct (string_truthy v) eqn:Hv; split.
        -- intros [= <-]. now exists v.
        -- intros (v' & [= <-] & _ & ->). reflexivity.
        -- discriminate.
        -- intros (v' & [= <-] & Hv' & _). congruence.
      * split; [discriminate | intros (v' & Hv' & _); discriminate].
    + intros v. destruct (headers res "etag") as [w|]; cbn.
      * destruct (string_truthy w) eqn:Hw; split.
        -- intros [= <-]. now split.
        -- intros [[= <-] _]. reflexivity.
        -- discriminate.
        -- intros [[= <-] Hv]. congruence.
      * split; [discriminate | intros [Hv _]; discriminate].
Qed.

(** *** Render orchestrator *)

Lemma abs_gt_outside (n : number) (b : Z) :
  num_gt (Math_abs n) (num_of_Z b) = outside (- b) b n.
Proof.
  destruct n as [|q]; [reflexivity|].
  cbn [Math_abs num_of_Z num_gt outside]. rewrite <- negb_andb. f_equal.
  apply eq_true_iff_eq.
  rewrite andb_true_iff, !Qle_bool_iff, Qabs_Qle_condition.
  change (inject_Z (- b)) with (- inject_Z b)%Q. tauto.
Qed.

Lemma longitude_check (n : number) :
  num_gt (Math_abs n) (num_of_Z 180) = outside (-180) 180 n.
Proof. exact (abs_gt_outside n 180). Qed.

Lemma latitude_check (n : number) :
  num_gt (Math_abs n) (num_of_Z 90) = outside (-90) 90 n.
Proof. exact (abs_gt_outside n 90). Qed.

Lemma range_gt_outside (n : number) :
  num_lt n (num_of_Z 0) || num_gt n (num_of_Z 22) = outside 0 22 n.
Proof. destruct n; reflexivity. Qed.

Lemma inside_not_outside (lo hi : Z) (n : number) :
  inside lo hi n = true -> outside lo hi n = false.
Proof.
  destruct n as [|q]; [discriminate|]. cbn [inside outside].
  intros H. apply andb_true_iff in H as [-> ->]. reflexivity.
Qed.

Lemma render_rejected (style : option json) (width height : option number)
      (options : options) (e : jsexn) :
  validation style (arg_or_1024 width) (arg_or_1024 height) options = Some e ->
  render geoViewport_viewport style width height options = Throw e.
Proof. intros H. unfold render. now rewrite H. Qed.

Lemma render_accepted (style : option json) (width height : option number)
      (options : options) :
  validation style (arg_or_1024 width) (arg_or_1024 height) options = None ->
  render geoViewport_viewport style width height options
  = let w := arg_or_1024 width in
    let h := arg_or_1024 height in
    let resolved := resolve_viewport geoViewport_viewport w h options in
    Emit (map_created (tilePath options))
      (Emit (map_loaded style)
         (map_render {| p_zoom := fst resolved; p_center := snd resolved;
                        p_height := h; p_width := w |}
                     (render_done w h))).
Proof. intros H. unfold render. now rewrite H. Qed.

Lemma validation_well_formed (style : option json) (width height : number)
      (options : options) :
  well_formed style width height options = true ->
  validation style width height options = None.
Proof.
  unfold well_formed, validation. intros H.
  repeat (apply andb_true_iff in H as [H ?]).
  rewrite H. cbn [negb throw_if and_then].
  match goal with A : number_truthy width = true |- _ => rewrite A end.
  match goal with A : number_truthy height = true |- _ => rewrite A end.
  cbn [andb negb throw_if and_then].
  assert (Hc : match center options with
               | None => None
               | Some c =>
                   throw_if (negb (List.length c =? 2)%nat) (center_malformed c) ;;
                   throw_if (num_gt (Math_abs (nth 0 c NaN)) (num_of_Z 180))
                            (longitude_outside (nth 0 c NaN)) ;;
                   throw_if (num_gt (Math_abs (nth 1 c NaN)) (num_of_Z 90))
                            (latitude_outside (nth 1 c NaN))
               end = None).
  { destruct (center options) as [[|lng [|lat [|]]]|]; try discriminate; [|reflexivity].
    match goal with A : _ && _ = true |- _ => apply andb_true_iff in A as [A1 A2] end.
    cbn [List.length Nat.eqb negb throw_if and_then nth].
    rewrite (longitude_check lng), (latitude_check lat).
    now rewrite (inside_not_outside _ _ _ A1), (inside_not_outside _ _ _ A2). }
  rewrite Hc. cbn [and_then].
  assert (Hz : match zoom options with
               | None => None
               | Some zm =>
                   throw_if (num_lt zm (num_of_Z 0) || num_gt zm (num_of_Z 22))
                            (zoom_outside zm)
               end = None).
  { destruct (zoom options) as [zm|]; [|reflexivity].
    rewrite range_gt_outside.
    match goal with A : inside 0 22 zm = true |- _ =>
      now rewrite (inside_not_outside _ _ _ A) end. }
  rewrite Hz. cbn [and_then].
  destruct (bounds options) as [b|]; [|reflexivity].
  match goal with A : (List.length b =? 4)%nat = true |- _ => now rewrite A end.
Qed.

Lemma validation_malformed (style : option json) (width height : number)
      (options : options) :
  malformed style options = true ->
  exists c e, raises c e /\ validation style width height options = Some e.
Proof.
  unfold malformed, validation. intros H.
  destruct (truthy_opt truthy style);
    [|eexists; eexists; split; [apply raises_style | reflexivity]].
  destruct (number_truthy width && number_truthy height);
    [|eexists; eexists; split; [apply raises_size | reflexivity]].
  cbn [negb throw_if and_then orb] in *.
  destruct (center options) as [c|].
  - destruct (List.length c =? 2)%nat;
      [|eexists; eexists; split; [apply raises_center | reflexivity]].
    rewrite <- (longitude_check (nth 0 c NaN)) in H.
    rewrite <- (latitude_check (nth 1 c NaN)) in H.
    destruct (num_gt (Math_abs (nth 0 c NaN)) (num_of_Z 180));
      [eexists; eexists; split; [apply raises_longitude | reflexivity]|].
    destruct (num_gt (Math_abs (nth 1 c NaN)) (num_of_Z 90));
      [eexists; eexists; split; [apply raises_latitude | reflexivity]|].
    cbn [negb throw_if and_then orb] in *.
    destruct (zoom options) as [zm|].
    + rewrite <- range_gt_outside in H.
      destruct (num_lt zm (num_of_Z 0) || num_gt zm (num_of_Z 22));
        [eexists; eexists; split; [apply raises_zoom | reflexivity]|].
      cbn [negb throw_if and_then orb] in *.
      destruct (bounds options) as [b|]; [|discriminate]. rewrite H.
      eexists; eexists; split; [apply raises_bounds | reflexivity].
    + cbn [negb throw_if and_then orb] in *.
      destruct (bounds options) as [b|]; [|discriminate]. rewrite H.
      eexists; eexists; split; [apply raises_bounds | reflexivity].
  - cbn [negb throw_if and_then orb] in *.
    destruct (zoom options) as [zm|].
    + rewrite <- range_gt_outside in H.
      destruct (num_lt zm (num_of_Z 0) || num_gt zm (num_of_Z 22));
        [eexists; eexists; split; [apply raises_zoom | reflexivity]|].
      cbn [negb throw_if and_then orb] in *.
      destruct (bounds options) as [b|]; [|discriminate]. rewrite H.
      eexists; eexists; split; [apply raises_bounds | reflexivity].
    + cbn [negb throw_if and_then orb] in *.
      destruct (bounds options) as [b|]; [|discriminate]. rewrite H.
      eexists; eexists; split; [apply raises_bounds | reflexivity].
Qed.

Lemma raises_one_check (c1 c2 : check) (e : jsexn) :
  raises c1 e -> raises c2 e -> c1 = c2.
Proof.
  intros H1 H2. destruct H1; inversion H2; reflexivity.
Qed.

Lemma validation_is_first_failing (style : option json) (width height : number)
      (options : options) :
  validation style width height options
  = option_map (fun c => exception_of c options)
               (first_failing style width height options).
Proof.
  unfold validation, first_failing, checks_in_order. cbn [find check_fails].
  destruct (truthy_opt truthy style); cbn [negb throw_if and_then];
    [|reflexivity].
  destruct (number_truthy width && number_truthy height);
    cbn [negb throw_if and_then]; [|reflexivity].
  destruct (center options) as [c|] eqn:Hc.
  - rewrite (longitude_check (nth 0 c NaN)), (latitude_check (nth 1 c NaN)).
    destruct (List.length c =? 2)%nat; cbn [negb throw_if and_then];
      [|unfold exception_of; now rewrite Hc].
    destruct (outside (-180) 180 (nth 0 c NaN)); cbn [throw_if and_then];
      [unfold exception_of; now rewrite Hc|].
    destruct (outside (-90) 90 (nth 1 c NaN)); cbn [throw_if and_then];
      [unfold exception_of; now rewrite Hc|].
    destruct (zoom options) as [zm|] eqn:Hz.
    + rewrite range_gt_outside.
      destruct (outside 0 22 zm); cbn [throw_if and_then];
        [unfold exception_of; now rewrite Hz|].
      destruct (bounds options) as [b|] eqn:Hb; [|reflexivity].
      destruct (List.length b =? 4)%nat; cbn [negb throw_if];
        [reflexivity | unfold exception_of; now rewrite Hb].
    + destruct (bounds options) as [b|] eqn:Hb; [|reflexivity].
      destruct (List.length b =? 4)%nat; cbn [negb throw_if and_then];
        [reflexivity | unfold exception_of; now rewrite Hb].
  - destruct (zoom options) as [zm|] eqn:Hz.
    + rewrite range_gt_outside.
      destruct (outside 0 22 zm); cbn [throw_if and_then];
        [unfold exception_of; now rewrite Hz|].
      destruct (bounds options) as [b|] eqn:Hb; [|reflexivity].
      destruct (List.length b =? 4)%nat; cbn [negb throw_if];
        [reflexivity | unfold exception_of; now rewrite Hb].
    + destruct (bounds options) as [b|] eqn:Hb; [|reflexivity].
      destruct (List.length b =? 4)%nat; cbn [negb throw_if and_then];
        [reflexivity | unfold exception_of; now rewrite Hb].
Qed.

Lemma only_failing_check_is_first (c : check) (style : option json)
      (width height : number) (options : options) :
  check_fails c style width height options = true ->
  (forall c', c' <> c -> check_fails c' style width height options = false) ->
  first_failing style width height options = Some c.
Proof.
  intros Hc Hothers. unfold first_failing, checks_in_order.
  destruct c; cbn [find];
    repeat match goal with
           | |- context [check_fails ?c' _ _ _ _] =>
               first [rewrite (Hothers c') by discriminate | rewrite Hc]
           end;
    reflexivity.
Qed.

Lemma exception_names_check (c1 c2 : check) (o1 o2 : options) :
  exception_of c1 o1 = exception_of c2 o2 -> c1 = c2.
Proof.
  destruct c1, c2; unfold exception_of; intros H;
    try reflexivity; inversion H.
Qed.

(** C6 (as amended).  The exception thrown by [render] is the one of the
    first check the call fails, in the order style, size, shape of the
    center, longitude, latitude, zoom, shape of the bounds, with the
    offending value in its message; the promise is rejected with it and
    nothing has happened before: the engine was not created, loaded or
    asked to render.  In particular a call with a single defect is rejected
    with the exception of that defect, every call with a missing style, a
    center that is not a pair, a longitude below -180 or above 180, a
    latitude below -90 or above 90, a zoom below 0 or above 22 or bounds
    that are not a quadruple fails some check, and the exceptions of
    different checks differ whatever values they report.  A call that fails
    no check, as every call whose parameters are present and in range, goes
    on to the engine. *)
Theorem render_rejects_malformed_before_engine
        (W : world) (style : option json) (width height : option number)
        (options : options) :
  let w := arg_or_1024 width in
  let h := arg_or_1024 height in
  let call := render geoViewport_viewport style width height options in
  (forall c,
     first_failing style w h options = Some c ->
     validation style w h options = Some (exception_of c options)
     /\ exec W call = ([], Some (exception_of c options))
     /\ new_Promise W call = Rejected (exception_of c options))
  /\ (forall c,
        check_fails c style w h options = true ->
        (forall c', c' <> c -> check_fails c' style w h options = false) ->
        first_failing style w h options = Some c)
  /\ (malformed style options = true ->
        exists c, first_failing style w h options = Some c)
  /\ (first_failing style w h options = None ->
        validation style w h options = None
        /\ exists p rest,
             trace W call
             = map_created (tilePath options) :: map_loaded style
               :: map_rendered p :: rest)
  /\ (well_formed style w h options = true ->
        first_failing style w h options = None)
  /\ (forall c1 c2 o1 o2, exception_of c1 o1 = exception_of c2 o2 -> c1 = c2).
Proof.
  intros w h call.
  pose proof (validation_is_first_failing style w h options) as Hv.
  repeat apply conj.
  - intros c Hc. rewrite Hc in Hv. cbn [option_map] in Hv.
    split; [exact Hv|].
    unfold call, new_Promise. rewrite (render_rejected _ _ _ _ _ Hv).
    split; reflexivity.
  - intros c. apply only_failing_check_is_first.
  - intros H.
    destruct (validation_malformed style w h options H) as (c & e & _ & He).
    destruct (first_failing style w h options) as [c0|]; [now exists c0|].
    rewrite He in Hv. discriminate.
  - intros Hnone. rewrite Hnone in Hv. cbn [option_map] in Hv.
    split; [exact Hv|].
    unfold call, trace. rewrite (render_accepted _ _ _ _ Hv).
    cbv zeta. cbn [exec fst].
    destruct (engine_sync W); eexists; eexists; reflexivity.
  - intros H. pose proof (validation_well_formed _ _ _ _ H) as Hw.
    destruct (first_failing style w h options) as [c0|]; [|reflexivity].
    rewrite Hw in Hv. discriminate.
  - exact exception_names_check.
Qed.

(** C9 (as amended).  The size check of [render] rejects a call exactly
    when its width or its height is zero (or not a number): such a call
    fails with the size error before any engine work, and a call whose
    width and height are both non-zero, negative values included, is never
    rejected with the size error. *)
Theorem render_size_check_rejects_exactly_zero
        (W : world) (style : option json) (width height : option number)
        (options : options) :
  truthy_opt truthy style = true ->
  let w := arg_or_1024 width in
  let h := arg_or_1024 height in
  let call := render geoViewport_viewport style width height options in
  (number_truthy w && number_truthy h = false ->
     validation style w h options = Some size_required
     /\ exec W call = ([], Some size_required)
     /\ new_Promise W call = Rejected size_required)
  /\ (number_truthy w && number_truthy h = true ->
        validation style w h options <> Some size_required)
  /\ (forall qw qh, w = Num qw -> h = Num qh ->
        (number_truthy w && number_truthy h = true
         <-> ~ (qw == 0)%Q /\ ~ (qh == 0)%Q)).
Proof.
  intros Hs w h call. repeat apply conj.
  - intros Hz.
    assert (Hv : validation style w h options = Some size_required).
    { unfold validation. rewrite Hs, Hz. reflexivity. }
    split; [exact Hv|].
    unfold call, new_Promise. rewrite (render_rejected _ _ _ _ _ Hv).
    split; reflexivity.
  - intros Hz. unfold validation. rewrite Hs, Hz.
    cbn [negb throw_if and_then].
    destruct (center options) as [c|];
      [destruct (negb (List.length c =? 2)%nat);
       [discriminate|];
       destruct (num_gt (Math_abs (nth 0 c NaN)) (num_of_Z 180));
       [discriminate|];
       destruct (num_gt (Math_abs (nth 1 c NaN)) (num_of_Z 90));
       [discriminate|] |];
      cbn [throw_if and_then];
      (destruct (zoom options) as [zm|];
       [destruct (num_lt zm (num_of_Z 0) || num_gt zm (num_of_Z 22));
        [discriminate|] |]);
      cbn [throw_if and_then];
      (destruct (bounds options) as [b|];
       [destruct (negb (List.length b =? 4)%nat)|]);
      discriminate.
  - intros qw qh -> ->. cbn [number_truthy].
    rewrite andb_true_iff, !negb_true_iff.
    rewrite <- !not_true_iff_false, !Qeq_bool_iff. tauto.
Qed.

(** C10 (the code at the failing input).  A call with a style and nothing
    else passes the checks, and the engine is asked to render with a null
    zoom and a null center. *)
Theorem render_without_center_zoom_bounds_reaches_engine
        (W : world) (fields : list (string * json)) :
  let style := Some (JObj fields) in
  let nothing := {| bounds := None; tilePath := None;
                    center := None; zoom := None |} in
  exists rest,
    trace W (render geoViewport_viewport style None None nothing)
    = map_created None :: map_loaded style
      :: map_rendered {| p_zoom := None; p_center := None;
                         p_height := num_of_Z 1024; p_width := num_of_Z 1024 |}
      :: rest.
Proof.
  intros style nothing. unfold trace. cbn.
  destruct (engine_sync W); eexists; reflexivity.
Qed.

(** C2 (the code at the failing input).  When the engine reports the error
    of a render pass in a later tick, the exception thrown by the callback
    of [map.render] is raised outside the executor of the promise: it is an
    uncaught exception, [resolve] is never called and the promise stays
    pending.  Only an engine that calls back before [map.render] returns
    would have the promise rejected with the error. *)
Theorem render_pass_error_leaves_promise_pending
        (W : world) (style : option json) (width height : option number)
        (options : options) (err : jsexn) :
  validation style (arg_or_1024 width) (arg_or_1024 height) options = None ->
  engine_render W (engine_params geoViewport_viewport width height options) = inl err ->
  let call := render geoViewport_viewport style width height options in
  (engine_sync W = false ->
     new_Promise W call = Pending
     /\ trace W call
        = [map_created (tilePath options); map_loaded style;
           map_rendered (engine_params geoViewport_viewport width height options); uncaught err])
  /\ (engine_sync W = true -> new_Promise W call = Rejected err).
Proof.
  intros Hv He call. unfold call, new_Promise, trace.
  rewrite (render_accepted _ _ _ _ Hv). cbv zeta.
  fold (engine_params geoViewport_viewport width height options).
  cbn [exec fst snd]. rewrite He. cbn [render_done exec later fst snd].
  split; intros ->; cbn; repeat split; reflexivity.
Qed.

Lemma render_reaches_engine (W : world) (style : option json)
      (width height : option number) (options : options) :
  validation style (arg_or_1024 width) (arg_or_1024 height) options = None ->
  exists rest,
    trace W (render geoViewport_viewport style width height options)
    = map_created (tilePath options) :: map_loaded style
      :: map_rendered (engine_params geoViewport_viewport width height options) :: rest.
Proof.
  intros Hv. unfold trace. rewrite (render_accepted _ _ _ _ Hv). cbv zeta.
  fold (engine_params geoViewport_viewport width height options). cbn [exec fst].
  destruct (engine_sync W); eexists; reflexivity.
Qed.

(** C1 (as amended).  In a call that passes the checks and supplies bounds:
    when center and zoom are both supplied, the engine is given exactly
    these and the bounds play no part; when either of them is missing, the
    engine is given the zoom and the center derived from the bounds, both
    of them, whatever was supplied for the other. *)
Theorem bounds_used_only_when_center_or_zoom_missing
        (W : world) (style : option json) (width height : option number)
        (options : options) (b : list number) :
  validation style (arg_or_1024 width) (arg_or_1024 height) options = None ->
  bounds options = Some b ->
  let w := arg_or_1024 width in
  let h := arg_or_1024 height in
  let fitted := geoViewport_viewport b [w; h] in
  let given := engine_params geoViewport_viewport width height options in
  (forall zm c,
     zoom options = Some zm -> center options = Some c ->
     given = {| p_zoom := Some zm; p_center := Some c;
                p_height := h; p_width := w |})
  /\ (zoom options = None \/ center options = None ->
      given = {| p_zoom := Some (Math_max (num_sub (vp_zoom fitted) (num_of_Z 1))
                                          (num_of_Z 0));
                 p_center := Some (vp_center fitted);
                 p_height := h; p_width := w |})
  /\ (exists rest,
        trace W (render geoViewport_viewport style width height options)
        = map_created (tilePath options) :: map_loaded style
          :: map_rendered given :: rest).
Proof.
  intros Hv Hb w h fitted given. repeat apply conj.
  - intros zm c Hz Hc. unfold given, engine_params, resolve_viewport.
    rewrite Hb, Hz, Hc. reflexivity.
  - intros Hmissing. unfold given, engine_params, resolve_viewport.
    rewrite Hb.
    assert (Hn : is_null (zoom options) || is_null (center options) = true).
    { destruct Hmissing as [-> | ->]; [reflexivity|]. apply orb_true_r. }
    rewrite Hn. reflexivity.
  - now apply render_reaches_engine.
Qed.

(** Whatever the fitted viewport is, some center a caller can supply is
    not the one the engine is given. *)
Lemma some_explicit_center_is_replaced :
  exists c,
    let call := {| bounds := Some box10; tilePath := None;
                   center := Some c; zoom := None |} in
    validation sample_style (num_of_Z 1024) (num_of_Z 1024) call = None
    /\ p_center (engine_params geoViewport_viewport None None call) <> Some c.
Proof.
  unfold engine_params, resolve_viewport. cbn [bounds zoom center is_null orb snd p_center].
  set (fit := vp_center (geoViewport_viewport box10 _)).
  destruct fit as [|[|[[|n|n] d]] rest] eqn:E.
  1, 2, 4, 5: exists [num_of_Z 0; num_of_Z 0]; split; [reflexivity | discriminate].
  exists [num_of_Z 1; num_of_Z 1]; split; [reflexivity | discriminate].
Qed.

Lemma nothing_within_inverted_box (west south east north : Q)
      (position : list number) :
  Qle_bool west east = false \/ Qle_bool south north = false ->
  within [Num west; Num south; Num east; Num north] position = false.
Proof.
  intros H.
  destruct position as [|[|lng] [|[|lat] [|]]]; try reflexivity.
  cbn [within].
  destruct (Qle_bool west lng) eqn:H1; [|reflexivity].
  destruct (Qle_bool lng east) eqn:H2; [|reflexivity].
  destruct (Qle_bool south lat) eqn:H3; [|reflexivity].
  destruct (Qle_bool lat north) eqn:H4; [|reflexivity].
  apply Qle_bool_iff in H1, H2, H3, H4.
  destruct H as [H | H]; apply not_true_iff_false in H; elim H;
    apply Qle_bool_iff; eapply Qle_trans; eassumption.
Qed.

(** C4 (as amended).  In a call that passes the checks, supplies bounds [B]
    and lacks a center or a zoom, with [fit] the answer of
    [geoViewport.viewport] for [B] and the dimensions: the zoom given to
    the engine is [Math.max(fit.zoom - 1, 0)], which is one level below the
    fit and never negative when [fit.zoom] is a number, and is not a number
    when [fit.zoom] is not; the center given to the engine is [fit.center]
    as it is; both are functions of [B] and the dimensions alone, and
    nothing observable happens before the engine is created.  When the
    east of [B] is west of its west, or its north south of its south, no
    position lies within [B], the one given to the engine included. *)
Theorem derived_viewport_zoom_margin_and_center
        (W : world) (style : option json) (width height : option number)
        (options : options) (B : list number) :
  validation style (arg_or_1024 width) (arg_or_1024 height) options = None ->
  bounds options = Some B ->
  is_null (zoom options) || is_null (center options) = true ->
  let w := arg_or_1024 width in
  let h := arg_or_1024 height in
  let fit := geoViewport_viewport B [w; h] in
  let zm := Math_max (num_sub (vp_zoom fit) (num_of_Z 1)) (num_of_Z 0) in
  resolve_viewport geoViewport_viewport w h options
  = (Some zm, Some (vp_center fit))
  /\ (forall level, vp_zoom fit = Num level ->
        zm = Num (Qmax (level - 1) 0) /\ num_lt zm (num_of_Z 0) = false)
  /\ (vp_zoom fit = NaN -> zm = NaN)
  /\ render geoViewport_viewport style width height options
     = Emit (map_created (tilePath options))
         (Emit (map_loaded style)
            (map_render {| p_zoom := Some zm; p_center := Some (vp_center fit);
                           p_height := h; p_width := w |}
                        (render_done w h)))
  /\ (forall west south east north,
        B = [Num west; Num south; Num east; Num north] ->
        Qle_bool west east = false \/ Qle_bool south north = false ->
        within B (vp_center fit) = false).
Proof.
  intros Hv Hb Hn w h fit zm.
  assert (Hr : resolve_viewport geoViewport_viewport w h options
               = (Some zm, Some (vp_center fit))).
  { unfold resolve_viewport. rewrite Hb, Hn. reflexivity. }
  repeat apply conj.
  - exact Hr.
  - intros level Hl. unfold zm. rewrite Hl. split; [reflexivity|].
    cbn [num_sub num_of_Z Math_max num_lt num_gt].
    apply negb_false_iff, Qle_bool_iff. apply Q.le_max_r.
  - intros Hl. unfold zm. now rewrite Hl.
  - rewrite (render_accepted _ _ _ _ Hv). cbv zeta.
    fold w h. rewrite Hr. reflexivity.
  - intros west south east north -> H. now apply nothing_within_inverted_box.
Qed.

End Properties.

(* ================================================================= *)
(** ** Witnesses and counterexamples *)


Lemma local_tile_absent_witness :
  startsWith "mbtiles://" "mbtiles://parks/9/9/9" = true
  /\ trace sample_world
       (request parse_known (Some "/data/tiles/")
                {| url := "mbtiles://parks/9/9/9"; kind := 3 |} engine_callback)
     = [archive_opened "/data/tiles/parks.mbtiles";
        tile_queried "9" "9" "9";
        console_log "error fetching tile: z:9 x:9 y:9 from /data/tiles/parks.mbtiles";
        callback_called None (Some empty_response)].
Proof.
  split; [reflexivity|].
  destruct (local_tile_open_failure_is_error_lookup_failure_is_empty
              parse_known sample_world (Some "/data/tiles/")
              "mbtiles://parks/9/9/9" eq_refl) as (file & Hf & _ & Htile).
  vm_compute in Hf. injection Hf as <-.
  exact (Htile parks_archive _ _ "9" "9" "9" _ eq_refl eq_refl eq_refl).
Defined.

Lemma request_remote_tile_witness :
  kind remote_tile_request = 3%Z
  /\ startsWith "mbtiles://" (url remote_tile_request) = false
  /\ request parse_known None remote_tile_request engine_callback
     = getRemoteTile parse_known (url remote_tile_request) engine_callback.
Proof.
  split; [reflexivity|]. split; [reflexivity|].
  exact (proj1 (proj2 (proj2 (proj2
           (request_routes_by_kind_and_scheme
              parse_known sample_world None remote_tile_request))))
         eq_refl eq_refl).
Defined.

Lemma remote_tile_not_found_witness :
  http_get sample_world "https://tiles.example/9/9/9.png"
  = inr ({| statusCode := 404; headers := fun _ => None |}, not_found_body)
  /\ parse_known not_found_body = inr (JObj [("message", JStr "not found")])
  /\ trace sample_world
       (getRemoteTile parse_known "https://tiles.example/9/9/9.png" engine_callback)
     = [http_requested "https://tiles.example/9/9/9.png";
        callback_called (Some (Error [Txt "not found"])) None].
Proof.
  split; [reflexivity|]. split; [reflexivity|].
  refine (proj1 (proj2 (remote_tile_error_and_header_mapping
                          parse_known sample_world "https://tiles.example/9/9/9.png"))
            {| statusCode := 404; headers := fun _ => None |} not_found_body
            [("message", JStr "not found")] "not found" eq_refl _ eq_refl eq_refl).
  discriminate.
Defined.

(** C8, as stated, fails: the [etag] header is present, with an empty
    value, and the result carries no [etag]. *)
Lemma remote_tile_empty_etag_not_copied :
  http_get sample_world (url remote_tile_request)
  = inr ({| statusCode := 200; headers := sample_headers |}, "png-bytes")
  /\ sample_headers "etag" = Some ""
  /\ trace sample_world
       (getRemoteTile parse_known (url remote_tile_request) engine_callback)
     = [http_requested (url remote_tile_request);
        callback_called None
          (Some {| modified := None;
                   expires := Some (Date_of "Thu, 01 Jan 2026 00:00:00 GMT");
                   etag := None;
                   data := Some (Raw "png-bytes") |})].
Proof. repeat split. Qed.

Lemma render_far_east_rejected_witness :
  first_failing sample_style (num_of_Z 1024) (num_of_Z 1024) far_east
  = Some LongitudeInRange
  /\ exec sample_world (render fit_at_origin sample_style None None far_east)
     = ([], Some (longitude_outside (num_of_Z 200)))
  /\ new_Promise sample_world
       (render fit_at_origin sample_style None None far_east)
     = Rejected (longitude_outside (num_of_Z 200)).
Proof.
  split; [reflexivity|].
  destruct (proj1 (render_rejects_malformed_before_engine
                     fit_at_origin sample_world sample_style None None far_east)
                  LongitudeInRange eq_refl) as (_ & A & B).
  split; [exact A | exact B].
Defined.

(** C6, as stated, fails: a longitude that is not a number is not within
    [-180, 180], and the call passes every check and reaches the engine.
    Nor is every failure a validation error: without an [options] object
    the call fails before the checks, with a [TypeError] that is the
    exception of none of them. *)
Lemma render_accepts_nan_longitude :
  inside (-180) 180 NaN = false
  /\ validation sample_style (num_of_Z 1024) (num_of_Z 1024) nan_longitude = None
  /\ trace sample_world (render fit_at_origin sample_style None None nan_longitude)
     = [map_created None; map_loaded sample_style;
        map_rendered {| p_zoom := Some (num_of_Z 1);
                        p_center := Some [NaN; num_of_Z 0];
                        p_height := num_of_Z 1024; p_width := num_of_Z 1024 |};
        uncaught (Error [Txt "render pass failed"])]
  /\ exec sample_world (render_call fit_at_origin None None None None)
     = ([], Some (TypeError "Cannot destructure 'options' as it is undefined"))
  /\ (forall c given,
        exception_of c given
        <> TypeError "Cannot destructure 'options' as it is undefined").
Proof.
  repeat split. intros c given. destruct c; discriminate.
Qed.

Lemma render_zero_width_witness :
  truthy_opt truthy sample_style = true
  /\ new_Promise sample_world
       (render fit_at_origin sample_style (Some (num_of_Z 0)) None center_and_zoom)
     = Rejected size_required.
Proof.
  split; [reflexivity|].
  exact (proj2 (proj2 (proj1 (render_size_check_rejects_exactly_zero
           fit_at_origin sample_world sample_style (Some (num_of_Z 0)) None
           center_and_zoom eq_refl) eq_refl))).
Defined.

(** C9, as stated, fails: a width of -1 is not strictly positive, and the
    call passes the checks and reaches the engine. *)
Lemma render_negative_width_accepted :
  num_gt (num_of_Z (-1)) (num_of_Z 0) = false
  /\ validation sample_style (num_of_Z (-1)) (num_of_Z 1024) center_and_zoom = None
  /\ trace working_world
       (render fit_at_origin sample_style (Some (num_of_Z (-1))) None center_and_zoom)
     = [map_created None; map_loaded sample_style;
        map_rendered {| p_zoom := Some (num_of_Z 1);
                        p_center := Some [num_of_Z 0; num_of_Z 0];
                        p_height := num_of_Z 1024; p_width := num_of_Z (-1) |};
        image_encoded (num_of_Z (-1)) (num_of_Z 1024);
        promise_resolved "PNG:rgba"].
Proof. repeat split. Qed.

Lemma render_pass_error_witness :
  validation sample_style (num_of_Z 1024) (num_of_Z 1024) center_and_zoom = None
  /\ engine_sync sample_world = false
  /\ new_Promise sample_world
       (render fit_at_origin sample_style None None center_and_zoom)
     = Pending.
Proof.
  split; [reflexivity|]. split; [reflexivity|].
  exact (proj1 (proj1 (render_pass_error_leaves_promise_pending
           fit_at_origin sample_world sample_style None None center_and_zoom
           (Error [Txt "render pass failed"]) eq_refl eq_refl) eq_refl)).
Defined.

(** C1, as stated, fails: the call supplies bounds and the center [5, 5]
    and no zoom; the engine is given the center of the fitted box, not the
    one supplied. *)
Lemma explicit_center_replaced_by_derived :
  center bounds_and_center = Some [num_of_Z 5; num_of_Z 5]
  /\ engine_params fit_at_origin None None bounds_and_center
     = {| p_zoom := Some (Num (Qmax (5 - 1) 0));
          p_center := Some [num_of_Z 0; num_of_Z 0];
          p_height := num_of_Z 1024; p_width := num_of_Z 1024 |}
  /\ trace working_world (render fit_at_origin sample_style None None bounds_and_center)
     = [map_created None; map_loaded sample_style;
        map_rendered (engine_params fit_at_origin None None bounds_and_center);
        image_encoded (num_of_Z 1024) (num_of_Z 1024);
        promise_resolved "PNG:rgba"].
Proof. repeat split. Qed.

Lemma bounds_with_center_witness :
  validation sample_style (num_of_Z 1024) (num_of_Z 1024) bounds_and_center = None
  /\ bounds bounds_and_center = Some box10
  /\ engine_params fit_at_origin None None bounds_and_center
     = {| p_zoom := Some (Math_max (num_sub (num_of_Z 5) (num_of_Z 1)) (num_of_Z 0));
          p_center := Some [num_of_Z 0; num_of_Z 0];
          p_height := num_of_Z 1024; p_width := num_of_Z 1024 |}.
Proof.
  split; [reflexivity|]. split; [reflexivity|].
  exact (proj1 (proj2 (bounds_used_only_when_center_or_zoom_missing
           fit_at_origin sample_world sample_style None None bounds_and_center
           box10 eq_refl eq_refl)) (or_introl eq_refl)).
Defined.

Lemma derived_viewport_witness :
  validation sample_style (num_of_Z 1024) (num_of_Z 1024) bounds_and_center = None
  /\ bounds bounds_and_center = Some box10
  /\ resolve_viewport fit_at_origin (num_of_Z 1024) (num_of_Z 1024) bounds_and_center
     = (Some (Math_max (num_sub (num_of_Z 5) (num_of_Z 1)) (num_of_Z 0)),
        Some [num_of_Z 0; num_of_Z 0]).
Proof.
  split; [reflexivity|]. split; [reflexivity|].
  exact (proj1 (derived_viewport_zoom_margin_and_center
                  fit_at_origin sample_world sample_style None None
                  bounds_and_center box10 eq_refl eq_refl eq_refl)).
Defined.

(** C4, as stated, fails: bounds across the antimeridian pass the checks,
    and whatever center is derived from them is not within them; with the
    stand-in for the library the engine is given the origin and a zoom that
    is not a number. *)
Lemma derived_center_outside_inverted_box :
  validation sample_style (num_of_Z 1024) (num_of_Z 1024) antimeridian_bounds = None
  /\ engine_params fit_without_zoom None None antimeridian_bounds
     = {| p_zoom := Some NaN; p_center := Some [num_of_Z 0; num_of_Z 0];
          p_height := num_of_Z 1024; p_width := num_of_Z 1024 |}
  /\ within antimeridian_box [num_of_Z 0; num_of_Z 0] = false
  /\ (forall position, within antimeridian_box position = false).
Proof.
  repeat split. intros position.
  apply nothing_within_inverted_box. now left.
Qed.

(* ================================================================= *)
(** ** Further properties of the URL resolver *)

Lemma length_append (a b : string) :
  String.length (a ++ b) = String.length a + String.length b.
Proof. induction a as [|c a IH]; cbn [append String.length]; [reflexivity | now rewrite IH]. Qed.

Lemma append_cancel_l (a b c : string) : a ++ b = a ++ c -> b = c.
Proof.
  induction a as [|ch a IH]; cbn [append]; intros H; [exact H|].
  injection H as H. now apply IH.
Qed.

Lemma append_cancel_r (a b c : string) : a ++ c = b ++ c -> a = b.
Proof.
  revert b; induction a as [|ch a IH]; intros [|dh b] H; cbn [append] in H.
  - reflexivity.
  - apply (f_equal String.length) in H.
    cbn [String.length] in H. rewrite length_append in H. lia.
  - apply (f_equal String.length) in H.
    cbn [String.length] in H. rewrite length_append in H. lia.
  - injection H as -> H. f_equal. now apply IH.
Qed.

Lemma before_no_slash (s : string) : all_chars not_slash (before "/" s) = true.
Proof.
  induction s as [|c s IH]; [reflexivity|].
  destruct (not_slash c) eqn:Hc.
  - rewrite before_slash_cons by assumption. cbn [all_chars]. now rewrite Hc, IH.
  - unfold not_slash in Hc. apply negb_false_iff, Ascii.eqb_eq in Hc. subst c.
    reflexivity.
Qed.

Lemma cut_scheme_nonempty (s a b : string) :
  cut "://" s = Some (a, b) -> string_truthy s = true.
Proof. destruct s; [discriminate | reflexivity]. Qed.

Lemma resolveNamefromURL_no_slash (u name : string) :
  resolveNamefromURL u = inr name -> all_chars not_slash name = true.
Proof.
  unfold resolveNamefromURL.
  destruct (nth_error (str_split "://" u) 1) as [rest|]; [|discriminate].
  intros [= <-]. unfold str_split. rewrite split_from_head. apply before_no_slash.
Qed.

(** What a group captured is a non-empty run of its class. *)
Lemma re_plus_inv_class {A} (cls : ascii -> bool) (s : string)
      (k : string -> string -> option A) (v : A) :
  forall acc,
  re_plus cls s acc k = Some v ->
  exists g r, s = g ++ r /\ string_truthy g = true /\ all_chars cls g = true
              /\ k (acc ++ g) r = Some v.
Proof.
  induction s as [|c s IH]; intros acc H; cbn [re_plus] in H; [discriminate|].
  destruct (cls c) eqn:Hc; [|discriminate].
  destruct (re_plus cls s (acc ++ String c "") k) as [w|] eqn:E.
  - inversion H; subst w. destruct (IH _ E) as (g & r & -> & _ & Hall & Hk).
    exists (String c g), r. repeat split.
    + cbn [all_chars]. now rewrite Hc, Hall.
    + rewrite append_assoc in Hk. exact Hk.
  - exists (String c ""), s. repeat split; [|exact H].
    cbn [all_chars]. now rewrite Hc.
Qed.

Lemma TILE_REGEXP_here_sound (s : string) (m : list string) :
  TILE_REGEXP_here s = Some m ->
  exists service z x y post,
    m = ["mbtiles://" ++ service ++ "/" ++ z ++ "/" ++ x ++ "/" ++ y;
         service; z; x; y]
    /\ s = "mbtiles://" ++ service ++ "/" ++ z ++ "/" ++ x ++ "/" ++ y ++ post
    /\ string_truthy service = true /\ all_chars not_slash service = true
    /\ string_truthy z = true /\ all_chars digit z = true
    /\ string_truthy x = true /\ all_chars digit x = true
    /\ string_truthy y = true /\ all_chars digit y = true.
Proof.
  unfold TILE_REGEXP_here. intros H.
  destruct (re_lit "mbtiles://" s) as [r0|] eqn:E0; [|discriminate].
  apply re_lit_inv in E0; subst s.
  apply re_plus_inv_class in H as (g1 & r1 & -> & N1 & C1 & H).
  destruct (re_lit "/" r1) as [r2|] eqn:E1; [|discriminate].
  apply re_lit_inv in E1; subst r1.
  apply re_plus_inv_class in H as (g2 & r3 & -> & N2 & C2 & H).
  destruct (re_lit "/" r3) as [r4|] eqn:E2; [|discriminate].
  apply re_lit_inv in E2; subst r3.
  apply re_plus_inv_class in H as (g3 & r5 & -> & N3 & C3 & H).
  destruct (re_lit "/" r5) as [r6|] eqn:E3; [|discriminate].
  apply re_lit_inv in E3; subst r5.
  apply re_plus_inv_class in H as (g4 & r7 & -> & N4 & C4 & H).
  cbn [append] in H. injection H as <-.
  exists g1, g2, g3, g4, r7. repeat split; assumption.
Qed.

(** X1.  Whenever [url.match(TILE_REGEXP)] is not null, the match array is
    [[whole; service; z; x; y]] where [whole] is
    [mbtiles://<service>/<z>/<x>/<y>] and occurs in the URL, the service
    name is non-empty and has no slash, and z, x and y are non-empty strings
    of digits. *)
Theorem tile_pattern_match_is_sound (u : string) (m : list string) :
  match_TILE_REGEXP u = Some m ->
  exists pre service z x y post,
    m = ["mbtiles://" ++ service ++ "/" ++ z ++ "/" ++ x ++ "/" ++ y;
         service; z; x; y]
    /\ u = pre ++ "mbtiles://" ++ service ++ "/" ++ z ++ "/" ++ x ++ "/" ++ y ++ post
    /\ string_truthy service = true /\ all_chars not_slash service = true
    /\ string_truthy z = true /\ all_chars digit z = true
    /\ string_truthy x = true /\ all_chars digit x = true
    /\ string_truthy y = true /\ all_chars digit y = true.
Proof.
  induction u as [|c u IH]; cbn [match_TILE_REGEXP]; intros H.
  - destruct (TILE_REGEXP_here "") as [m'|] eqn:E; [|discriminate].
    injection H as ->.
    destruct (TILE_REGEXP_here_sound _ _ E) as (sv & z & x & y & post & Hm & Hs & Hrest).
    exists "", sv, z, x, y, post. now repeat split.
  - destruct (TILE_REGEXP_here (String c u)) as [m'|] eqn:E.
    + injection H as ->.
      destruct (TILE_REGEXP_here_sound _ _ E) as (sv & z & x & y & post & Hm & Hs & Hrest).
      exists "", sv, z, x, y, post. now repeat split.
    + destruct (IH H) as (pre & sv & z & x & y & post & Hm & Hs & Hrest).
      exists (String c pre), sv, z, x, y, post.
      split; [exact Hm|]. split; [|exact Hrest].
      cbn [append]. now rewrite Hs.
Qed.

Lemma tile_url_name (service z rest : string) :
  all_chars not_slash service = true ->
  string_truthy z = true -> all_chars digit z = true ->
  resolveNamefromURL ("mbtiles://" ++ service ++ "/" ++ z ++ rest) = inr service.
Proof.
  intros Hs Hz1 Hz2. rewrite resolveNamefromURL_scheme.
  change (service ++ "/" ++ z ++ rest) with (service ++ String "/" (z ++ rest)).
  rewrite name_of_service; auto using digits_no_leading_slash.
Qed.

Lemma path_format_prefix (tilePath : option string) (name ext : string) :
  path_format tilePath name ext
  = match tilePath with Some dir => dir | None => "" end ++ name ++ ext.
Proof. destruct tilePath as [[|c dir]|]; reflexivity. Qed.

(** X2.  [resolveNamefromURL] throws exactly on the URLs that do not contain
    ["://"]; on the others the name is the text that follows the first
    ["://"], cut at the next ["://"] and then at the next ["/"].
    [resolveMBTilesURL] throws on the same URLs. *)
Theorem service_name_requires_scheme_separator
        (tilePath : option string) (u : string) :
  (cut "://" u = None ->
     resolveNamefromURL u
     = inl (TypeError "Cannot read property 'split' of undefined")
     /\ resolveMBTilesURL tilePath u
        = inl (TypeError "Cannot read property 'split' of undefined"))
  /\ (forall a b,
        cut "://" u = Some (a, b) ->
        resolveNamefromURL u = inr (before "/" (before "://" b))).
Proof.
  split.
  - intros H.
    assert (Hn : resolveNamefromURL u
                 = inl (TypeError "Cannot read property 'split' of undefined")).
    { unfold resolveNamefromURL, str_split. rewrite split_from_S, H. reflexivity. }
    split; [exact Hn|]. unfold resolveMBTilesURL. now rewrite Hn.
  - intros a b H. unfold resolveNamefromURL.
    rewrite (str_split_second "://" u a b H (cut_scheme_nonempty _ _ _ H)).
    unfold str_split. now rewrite split_from_head.
Qed.

(** X3.  A resolved archive path is the base directory (nothing when there
    is none), then the service name, then [".mbtiles"], and the service
    name contains no slash: no URL makes the resolver name a file below a
    subdirectory of its own choosing. *)
Theorem archive_path_shape (tilePath : option string) (u file : string) :
  resolveMBTilesURL tilePath u = inr file ->
  exists name,
    resolveNamefromURL u = inr name
    /\ all_chars not_slash name = true
    /\ file = match tilePath with Some dir => dir | None => "" end
              ++ name ++ ".mbtiles".
Proof.
  unfold resolveMBTilesURL.
  destruct (resolveNamefromURL u) as [e|name] eqn:E; [discriminate|].
  intros [= <-]. exists name. split; [reflexivity|].
  split; [now apply resolveNamefromURL_no_slash in E | apply path_format_prefix].
Qed.

(** X4.  Under one base directory, two URLs resolve to the same archive
    file exactly when they have the same service name. *)
Theorem archive_path_identifies_service
        (tilePath : option string) (u1 u2 name1 name2 : string) :
  resolveNamefromURL u1 = inr name1 ->
  resolveNamefromURL u2 = inr name2 ->
  (resolveMBTilesURL tilePath u1 = resolveMBTilesURL tilePath u2
   <-> name1 = name2).
Proof.
  intros H1 H2. unfold resolveMBTilesURL. rewrite H1, H2. split.
  - intros [= H]. rewrite !path_format_prefix in H.
    apply append_cancel_l in H. now apply append_cancel_r in H.
  - now intros ->.
Qed.

(** X5.  What follows the y coordinate of a tile URL, as long as it does not
    start with a digit (a file extension, a query string), is ignored:
    [getTile] does on the longer URL what it does on the URL cut after y. *)
Theorem tile_url_suffix_is_ignored
        (tilePath : option string) (service z x y suffix : string)
        (callback : callback_t) :
  string_truthy service = true -> all_chars not_slash service = true ->
  string_truthy z = true -> all_chars digit z = true ->
  string_truthy x = true -> all_chars digit x = true ->
  string_truthy y = true -> all_chars digit y = true ->
  stops digit suffix = true ->
  getTile tilePath
    ("mbtiles://" ++ service ++ "/" ++ z ++ "/" ++ x ++ "/" ++ y ++ suffix) callback
  = getTile tilePath
      ("mbtiles://" ++ service ++ "/" ++ z ++ "/" ++ x ++ "/" ++ y) callback.
Proof.
  intros Hs1 Hs2 Hz1 Hz2 Hx1 Hx2 Hy1 Hy2 Hsuffix.
  pose proof (match_TILE_REGEXP_here _ _
    (TILE_REGEXP_here_form service z x y suffix
       Hs1 Hs2 Hz1 Hz2 Hx1 Hx2 Hy1 Hy2 Hsuffix)) as Hlong.
  pose proof (match_TILE_REGEXP_here _ _
    (TILE_REGEXP_here_form service z x y ""
       Hs1 Hs2 Hz1 Hz2 Hx1 Hx2 Hy1 Hy2 eq_refl)) as Hshort.
  rewrite append_empty_r in Hshort.
  unfold getTile, resolveMBTilesURL.
  rewrite Hlong, Hshort.
  rewrite (tile_url_name service z ("/" ++ x ++ "/" ++ y ++ suffix)) by assumption.
  rewrite (tile_url_name service z ("/" ++ x ++ "/" ++ y)) by assumption.
  reflexivity.
Qed.

(** X6.  When the pattern matches at the start of the URL, the service name
    it captures is the one [resolveNamefromURL] returns: [getTile] opens
    the archive of that service and asks it for the captured z, x, y. *)
Theorem tile_coordinates_and_archive_agree
        (tilePath : option string) (u whole service z x y : string)
        (callback : callback_t) :
  TILE_REGEXP_here u = Some [whole; service; z; x; y] ->
  resolveNamefromURL u = inr service
  /\ exists after_open,
       getTile tilePath u callback
       = MBTiles_new (path_format tilePath service ".mbtiles") after_open
       /\ forall mbtiles, exists after_query,
            after_open (inr mbtiles) = mbtiles_getTile mbtiles z x y after_query.
Proof.
  intros H.
  destruct (TILE_REGEXP_here_sound _ _ H)
    as (sv & z' & x' & y' & post & Hm & Hu & Hs1 & Hs2 & Hz1 & Hz2 & _).
  injection Hm as -> -> -> -> ->.
  assert (Hname : resolveNamefromURL u = inr sv).
  { rewrite Hu. now apply tile_url_name. }
  split; [exact Hname|].
  unfold getTile, resolveMBTilesURL.
  rewrite (match_TILE_REGEXP_here _ _ H), Hname.
  cbn [List.length Nat.sub slice skipn firstn nth].
  eexists; split; [reflexivity|]. intros mbtiles. eexists; reflexivity.
Qed.

(** When the pattern only matches further to the right, the two readings of
    the URL differ: the archive is named after the text that follows the
    first scheme separator, the coordinates come from the later match. *)
Example later_match_names_another_archive :
  trace sample_world
    (request parse_known (Some "/data/tiles/")
             {| url := "mbtiles://mbtiles://parks/5/10/12"; kind := 3 |}
             engine_callback)
  = [archive_opened "/data/tiles/mbtiles.mbtiles";
     callback_called
       (Some (Error [Txt "SQLITE_CANTOPEN: unable to open database file"])) None].
Proof. reflexivity. Qed.

(** X7.  The tile URLs described by the template that [getTileJSON] puts in
    its metadata, [mbtiles://<service>/{z}/{x}/{y}] with the service name
    resolved from the source URL and the placeholders replaced by numbers,
    are local-archive URLs that resolve to the archive file of the source
    URL; when the service name is not empty they match the tile pattern
    with these numbers. *)
Theorem tilejson_template_leads_back_to_archive
        (tilePath : option string) (u service z x y : string) :
  resolveNamefromURL u = inr service ->
  string_truthy z = true -> all_chars digit z = true ->
  string_truthy x = true -> all_chars digit x = true ->
  string_truthy y = true -> all_chars digit y = true ->
  let tile := "mbtiles://" ++ service ++ "/" ++ z ++ "/" ++ x ++ "/" ++ y in
  startsWith "mbtiles://" tile = true
  /\ resolveMBTilesURL tilePath tile = resolveMBTilesURL tilePath u
  /\ (string_truthy service = true ->
      match_TILE_REGEXP tile = Some [tile; service; z; x; y]).
Proof.
  intros Hu Hz1 Hz2 Hx1 Hx2 Hy1 Hy2 tile.
  pose proof (resolveNamefromURL_no_slash _ _ Hu) as Hs.
  repeat split.
  - unfold resolveMBTilesURL, tile.
    rewrite (tile_url_name service z ("/" ++ x ++ "/" ++ y)) by assumption.
    now rewrite Hu.
  - intros Hne. apply match_TILE_REGEXP_here.
    pose proof (TILE_REGEXP_here_form service z x y ""
                  Hne Hs Hz1 Hz2 Hx1 Hx2 Hy1 Hy2 eq_refl) as H.
    rewrite append_empty_r in H. exact H.
Qed.

(* ================================================================= *)
(** ** Further properties of the adapters and of the dispatcher *)

(** Split on whatever the goal still inspects, and compute. *)
Ltac run_cases :=
  repeat (cbn [exec fst snd later callbacks never forallb app negb andb
               is_http_event is_archive_event List.length
               try_catch engine_callback request_handler
               Z.eqb Pos.eqb get_prop Error_of];
          match goal with
          | |- context [match ?x with _ => _ end] => destruct x eqn:?
          | |- context [if ?x then _ else _] => destruct x eqn:?
          end).

Section Adapters.

Variable JSON_parse : string -> jsexn + json.

(** X8.  A tile request for a local-archive URL whose archive opens and
    holds the tile: the bytes stored in the archive are handed to the
    callback as [data], unchanged and with no error, and nothing is
    logged. *)
Theorem local_tile_found_is_passed_through
        (W : world) (tilePath : option string) (u : string) :
  startsWith "mbtiles://" u = true ->
  exists file,
    resolveMBTilesURL tilePath u = inr file
    /\ forall mbtiles whole service z x y bytes,
         open_archive W file = inr mbtiles ->
         match_TILE_REGEXP u = Some [whole; service; z; x; y] ->
         getTile_result mbtiles z x y = inr bytes ->
         trace W (request JSON_parse tilePath {| url := u; kind := 3 |}
                          engine_callback)
         = [archive_opened file;
            tile_queried z x y;
            callback_called None
              (Some {| modified := None; expires := None; etag := None;
                       data := Some (Raw bytes) |})].
Proof.
  intros Hlocal.
  destruct (resolveMBTilesURL_local tilePath u Hlocal) as [file Hfile].
  exists file. split; [exact Hfile|].
  intros mbtiles whole service z x y bytes Hopen Hm Htile.
  unfold trace. rewrite request_tile_local by assumption.
  unfold getTile. rewrite Hfile, Hm.
  cbn [List.length Nat.sub slice skipn firstn nth try_catch exec fst].
  rewrite Hopen. cbn [exec fst snd later]. rewrite Htile. reflexivity.
Qed.

(** X9.  Source metadata for a URL with the service name [service]: the
    archive [<tilePath><service>.mbtiles] is opened; an error of the open
    call or of the info query is passed to the callback and nothing else
    happens; otherwise the callback receives, with no error, the TileJSON
    document with version ["1.0.0"], the one tile template
    [mbtiles://<service>/{z}/{x}/{y}], and the zoom range, center and bounds
    of the archive's info record as they are. *)
Theorem source_metadata_outcomes
        (W : world) (tilePath : option string) (u service : string) :
  resolveNamefromURL u = inr service ->
  let file := path_format tilePath service ".mbtiles" in
  let run := trace W (getTileJSON tilePath u engine_callback) in
  (forall err,
     open_archive W file = inl err ->
     run = [archive_opened file; callback_called (Some err) None])
  /\ (forall mbtiles infoErr,
        open_archive W file = inr mbtiles ->
        getInfo_result mbtiles = inl infoErr ->
        run = [archive_opened file; info_queried;
               callback_called (Some infoErr) None])
  /\ (forall mbtiles inf,
        open_archive W file = inr mbtiles ->
        getInfo_result mbtiles = inr inf ->
        run = [archive_opened file; info_queried;
               callback_called None
                 (Some {| modified := None; expires := None; etag := None;
                          data := Some (Stringified
                            {| tj_tilejson := "1.0.0";
                               tj_tiles := ["mbtiles://" ++ service ++ "/{z}/{x}/{y}"];
                               tj_minzoom := info_minzoom inf;
                               tj_maxzoom := info_maxzoom inf;
                               tj_center := info_center inf;
                               tj_bounds := info_bounds inf |}) |})]).
Proof.
  intros Hname file run. unfold run, trace, getTileJSON, resolveMBTilesURL.
  rewrite Hname. fold file. cbn [exec fst].
  repeat apply conj.
  - intros err ->. reflexivity.
  - intros mbtiles infoErr -> Hinfo. cbn [exec fst snd later]. now rewrite Hinfo.
  - intros mbtiles inf -> Hinfo. cbn [exec fst snd later]. now rewrite Hinfo.
Qed.

(** X10.  The dispatcher never calls the callback twice.  For a metadata or
    tile request with a local-archive URL it calls it exactly once, whatever
    the archive store answers and whether or not the URL is well formed. *)
Theorem request_calls_back_at_most_once
        (W : world) (tilePath : option string) (req : tile_request) :
  let run := trace W (request JSON_parse tilePath req engine_callback) in
  List.length (callbacks run) <= 1
  /\ (startsWith "mbtiles://" (url req) = true ->
      kind req = 2%Z \/ kind req = 3%Z ->
      List.length (callbacks run) = 1).
Proof.
  intros run. unfold run, trace, request.
  destruct req as [u k]. cbn [url kind]. split.
  - unfold getTileJSON, getTile, getRemoteTile. run_cases; cbn; lia.
  - intros -> [-> | ->]; unfold getTileJSON, getTile; run_cases; reflexivity.
Qed.

(** X11.  The two back ends are kept apart: a request with a local-archive
    URL never reaches the HTTP client, and a request with any other URL
    never reaches the archive store. *)
Theorem request_keeps_backends_apart
        (W : world) (tilePath : option string) (req : tile_request) :
  let run := trace W (request JSON_parse tilePath req engine_callback) in
  (startsWith "mbtiles://" (url req) = true -> never is_http_event run = true)
  /\ (startsWith "mbtiles://" (url req) = false -> never is_archive_event run = true).
Proof.
  intros run. unfold run, trace, request.
  destruct req as [u k]. cbn [url kind]. split; intros ->.
  - unfold getTileJSON, getTile. run_cases; reflexivity.
  - unfold getRemoteTile. run_cases; reflexivity.
Qed.

(** X12.  A remote answer whose status is not 200.  When the body is not
    JSON, or is the JSON value [null], the exception raised while building
    the error is thrown inside the callback of the HTTP client: it is
    uncaught and the engine's callback is never called.  When the body is an
    object without [message], the callback gets an error with an empty
    message. *)
Theorem remote_error_body_edge_cases
        (W : world) (u : string) (res : http_res) (body : string) :
  http_get W u = inr (res, body) ->
  statusCode res <> 200%Z ->
  let run := trace W (getRemoteTile JSON_parse u engine_callback) in
  (forall e, JSON_parse body = inl e ->
             run = [http_requested u; uncaught e] /\ callbacks run = [])
  /\ (JSON_parse body = inr JNull ->
      run = [http_requested u;
             uncaught (TypeError "Cannot read property of null")]
      /\ callbacks run = [])
  /\ (forall fields,
        JSON_parse body = inr (JObj fields) ->
        assoc "message" fields = None ->
        run = [http_requested u; callback_called (Some (Error [])) None]).
Proof.
  intros Hget Hstatus run. unfold run, trace, getRemoteTile.
  cbn [exec fst]. rewrite Hget. apply Z.eqb_neq in Hstatus. rewrite Hstatus.
  repeat apply conj.
  - intros e ->. split; reflexivity.
  - intros ->. split; reflexivity.
  - intros fields -> Hm. cbn [get_prop]. rewrite Hm. reflexivity.
Qed.

End Adapters.

(* ================================================================= *)
(** ** Further properties of [render] *)

Section Render.

Variable geoViewport_viewport : list number -> list number -> viewport.

(** X13.  The checks of [render] reject a call exactly when it has no
    style, a zero (or not-a-number) width or height, a center that is not a
    pair or has a coordinate outside its range, a zoom outside its range,
    or bounds that are not a quadruple.  Nothing else is rejected: a
    coordinate or zoom that is not a number passes, and the contents of the
    bounds are not inspected. *)
Theorem validation_rejects_exactly_the_malformed
        (style : option json) (width height : number) (options : options) :
  validation style width height options = None
  <-> malformed style options = false
      /\ number_truthy width && number_truthy height = true.
Proof.
  split.
  - intros Hv.
    destruct (malformed style options) eqn:Hm.
    + destruct (validation_malformed style width height options Hm)
        as (c & e & _ & He). congruence.
    + split; [reflexivity|].
      unfold validation in Hv.
      destruct (truthy_opt truthy style); [|discriminate].
      destruct (number_truthy width && number_truthy height);
        [reflexivity | discriminate].
  - intros [Hm Hsize]. unfold malformed in Hm. unfold validation.
    apply orb_false_iff in Hm as [Hm Hb].
    apply orb_false_iff in Hm as [Hm Hz].
    apply orb_false_iff in Hm as [Hs Hc].
    apply negb_false_iff in Hs. rewrite Hs, Hsize.
    cbn [negb throw_if and_then].
    destruct (center options) as [c|].
    + apply orb_false_iff in Hc as [Hc Hlat].
      apply orb_false_iff in Hc as [Hlen Hlng].
      rewrite Hlen, (longitude_check (nth 0 c NaN)), Hlng,
              (latitude_check (nth 1 c NaN)), Hlat.
      cbn [throw_if and_then].
      destruct (zoom options) as [zm|].
      * rewrite range_gt_outside, Hz. cbn [throw_if and_then].
        destruct (bounds options) as [b|]; [now rewrite Hb | reflexivity].
      * destruct (bounds options) as [b|]; [now rewrite Hb | reflexivity].
    + destruct (zoom options) as [zm|].
      * rewrite range_gt_outside, Hz. cbn [throw_if and_then].
        destruct (bounds options) as [b|]; [now rewrite Hb | reflexivity].
      * destruct (bounds options) as [b|]; [now rewrite Hb | reflexivity].
Qed.

(** X14.  When the checks pass and the engine's render pass yields a pixel
    buffer, the buffer goes to the encoder as raw pixels of the requested
    width and height (1024 where omitted), and what becomes of the promise
    follows the encoder.  If the image is encoded, the promise is fulfilled
    with it.  If [sharp(...)] throws on its arguments, the exception is
    raised inside the callback of [map.render]: with an engine that calls
    back in a later tick it is uncaught and the promise stays pending, with
    one that calls back at once the promise is rejected.  If [toBuffer] is
    rejected, the rejection is unhandled and the promise stays pending. *)
Theorem render_outcome_follows_encoder
        (W : world) (style : option json) (width height : option number)
        (options : options) (pixels : string) :
  validation style (arg_or_1024 width) (arg_or_1024 height) options = None ->
  engine_render W (engine_params geoViewport_viewport width height options)
  = inr pixels ->
  let w := arg_or_1024 width in
  let h := arg_or_1024 height in
  let call := render geoViewport_viewport style width height options in
  let reached :=
    [map_created (tilePath options); map_loaded style;
     map_rendered (engine_params geoViewport_viewport width height options)] in
  (forall png,
     encode_png W pixels w h = Encoded png ->
     new_Promise W call = Fulfilled png
     /\ trace W call = (reached ++ [image_encoded w h; promise_resolved png])%list)
  /\ (forall e,
        encode_png W pixels w h = Refused e ->
        (engine_sync W = false ->
           new_Promise W call = Pending
           /\ trace W call = (reached ++ [uncaught e])%list)
        /\ (engine_sync W = true -> new_Promise W call = Rejected e))
  /\ (forall e,
        encode_png W pixels w h = Failed e ->
        new_Promise W call = Pending
        /\ trace W call = (reached ++ [unhandled_rejection e])%list).
Proof.
  intros Hv He w h call reached. unfold reached, call, new_Promise, trace.
  rewrite (render_accepted _ _ _ _ _ Hv). cbv zeta.
  fold (engine_params geoViewport_viewport width height options). fold w h.
  cbn [exec fst snd]. rewrite He. cbn [render_done exec].
  repeat apply conj.
  - intros png ->. destruct (engine_sync W); split; reflexivity.
  - intros e ->. split; intros ->; [split|]; reflexivity.
  - intros e ->. destruct (engine_sync W); split; reflexivity.
Qed.

(** An encoder that refuses a width below zero: the call passes the checks
    of [render], the exception is raised in a later tick and the promise
    stays pending. *)
Example negative_width_refused_by_encoder :
  new_Promise checking_encoder_world
    (render fit_at_origin sample_style (Some (num_of_Z (-1))) None center_and_zoom)
  = Pending
  /\ trace checking_encoder_world
       (render fit_at_origin sample_style (Some (num_of_Z (-1))) None center_and_zoom)
     = [map_created None; map_loaded sample_style;
        map_rendered {| p_zoom := Some (num_of_Z 1);
                        p_center := Some [num_of_Z 0; num_of_Z 0];
                        p_height := num_of_Z 1024; p_width := num_of_Z (-1) |};
        uncaught (Error [Txt "Expected positive integer for raw dimensions"])].
Proof. split; reflexivity. Qed.


(** X16.  When a call fails several checks, the exception is the one of
    the first failing check in the order style, size, shape of the center,
    longitude, latitude, zoom, shape of the bounds; when it fails none, no
    exception is thrown. *)
Theorem validation_reports_first_failing_check
        (style : option json) (width height : number) (options : options) :
  match find (fun c => check_fails c style width height options)
             checks_in_order with
  | None => validation style width height options = None
  | Some c => exists e, validation style width height options = Some e
                        /\ raises c e
  end.
Proof.
  unfold validation, checks_in_order. cbn [find check_fails].
  destruct (truthy_opt truthy style); cbn [negb throw_if and_then];
    [|eexists; split; [reflexivity | constructor]].
  destruct (number_truthy width && number_truthy height);
    cbn [negb throw_if and_then];
    [|eexists; split; [reflexivity | constructor]].
  destruct (center options) as [c|].
  - rewrite (longitude_check (nth 0 c NaN)), (latitude_check (nth 1 c NaN)).
    destruct (List.length c =? 2)%nat; cbn [negb throw_if and_then];
      [|eexists; split; [reflexivity | constructor]].
    destruct (outside (-180) 180 (nth 0 c NaN)); cbn [throw_if and_then];
      [eexists; split; [reflexivity | constructor]|].
    destruct (outside (-90) 90 (nth 1 c NaN)); cbn [throw_if and_then];
      [eexists; split; [reflexivity | constructor]|].
    destruct (zoom options) as [zm|].
    + rewrite range_gt_outside.
      destruct (outside 0 22 zm); cbn [throw_if and_then];
        [eexists; split; [reflexivity | constructor]|].
      destruct (bounds options) as [b|]; [|reflexivity].
      destruct (List.length b =? 4)%nat; cbn [negb throw_if];
        [reflexivity | eexists; split; [reflexivity | constructor]].
    + destruct (bounds options) as [b|]; [|reflexivity].
      destruct (List.length b =? 4)%nat; cbn [negb throw_if and_then];
        [reflexivity | eexists; split; [reflexivity | constructor]].
  - destruct (zoom options) as [zm|].
    + rewrite range_gt_outside.
      destruct (outside 0 22 zm); cbn [throw_if and_then];
        [eexists; split; [reflexivity | constructor]|].
      destruct (bounds options) as [b|]; [|reflexivity].
      destruct (List.length b =? 4)%nat; cbn [negb throw_if];
        [reflexivity | eexists; split; [reflexivity | constructor]].
    + destruct (bounds options) as [b|]; [|reflexivity].
      destruct (List.length b =? 4)%nat; cbn [negb throw_if and_then];
        [reflexivity | eexists; split; [reflexivity | constructor]].
Qed.

End Render.

(* ================================================================= *)
(** ** Witnesses of the further properties *)

Lemma service_name_without_scheme_witness :
  cut "://" "parks/5/10/12" = None
  /\ resolveNamefromURL "parks/5/10/12"
     = inl (TypeError "Cannot read property 'split' of undefined").
Proof.
  split; [reflexivity|].
  exact (proj1 (proj1 (service_name_requires_scheme_separator None "parks/5/10/12")
                      eq_refl)).
Defined.

Lemma archive_path_shape_witness :
  resolveMBTilesURL (Some "/data/tiles/") "mbtiles://parks/5/10/12"
  = inr "/data/tiles/parks.mbtiles"
  /\ exists name,
       resolveNamefromURL "mbtiles://parks/5/10/12" = inr name
       /\ all_chars not_slash name = true
       /\ "/data/tiles/parks.mbtiles" = "/data/tiles/" ++ name ++ ".mbtiles".
Proof.
  split; [reflexivity|].
  exact (archive_path_shape (Some "/data/tiles/") "mbtiles://parks/5/10/12"
                            "/data/tiles/parks.mbtiles" eq_refl).
Defined.

Lemma archive_path_same_service_witness :
  resolveNamefromURL "mbtiles://parks/5/10/12" = inr "parks"
  /\ resolveNamefromURL "mbtiles://parks/6/1/2" = inr "parks"
  /\ resolveMBTilesURL (Some "/data/tiles/") "mbtiles://parks/5/10/12"
     = resolveMBTilesURL (Some "/data/tiles/") "mbtiles://parks/6/1/2".
Proof.
  split; [reflexivity|]. split; [reflexivity|].
  exact (proj2 (archive_path_identifies_service
                  (Some "/data/tiles/") "mbtiles://parks/5/10/12"
                  "mbtiles://parks/6/1/2" "parks" "parks" eq_refl eq_refl)
               eq_refl).
Defined.

Lemma tile_pattern_sound_witness :
  match_TILE_REGEXP "https://host/mbtiles://parks/5/10/12.pbf"
  = Some ["mbtiles://parks/5/10/12"; "parks"; "5"; "10"; "12"]
  /\ exists pre service z x y post,
       ["mbtiles://parks/5/10/12"; "parks"; "5"; "10"; "12"]
       = ["mbtiles://" ++ service ++ "/" ++ z ++ "/" ++ x ++ "/" ++ y;
          service; z; x; y]
       /\ "https://host/mbtiles://parks/5/10/12.pbf"
          = pre ++ "mbtiles://" ++ service ++ "/" ++ z ++ "/" ++ x ++ "/" ++ y ++ post
       /\ string_truthy service = true /\ all_chars not_slash service = true
       /\ string_truthy z = true /\ all_chars digit z = true
       /\ string_truthy x = true /\ all_chars digit x = true
       /\ string_truthy y = true /\ all_chars digit y = true.
Proof.
  split; [reflexivity|].
  exact (tile_pattern_match_is_sound
           "https://host/mbtiles://parks/5/10/12.pbf" _ eq_refl).
Defined.

Lemma tile_url_suffix_witness :
  stops digit ".pbf?fresh=1" = true
  /\ getTile (Some "/data/tiles/") "mbtiles://parks/5/10/12.pbf?fresh=1"
             engine_callback
     = getTile (Some "/data/tiles/") "mbtiles://parks/5/10/12" engine_callback.
Proof.
  split; [reflexivity|].
  exact (tile_url_suffix_is_ignored
           (Some "/data/tiles/") "parks" "5" "10" "12" ".pbf?fresh=1" engine_callback
           eq_refl eq_refl eq_refl eq_refl eq_refl eq_refl eq_refl eq_refl eq_refl).
Defined.

Lemma tile_coordinates_agree_witness :
  TILE_REGEXP_here "mbtiles://parks/5/10/12@2x"
  = Some ["mbtiles://parks/5/10/12"; "parks"; "5"; "10"; "12"]
  /\ resolveNamefromURL "mbtiles://parks/5/10/12@2x" = inr "parks".
Proof.
  split; [reflexivity|].
  exact (proj1 (tile_coordinates_and_archive_agree
                  None "mbtiles://parks/5/10/12@2x" _ "parks" "5" "10" "12"
                  engine_callback eq_refl)).
Defined.

Lemma tilejson_template_witness :
  resolveNamefromURL "mbtiles://parks" = inr "parks"
  /\ resolveMBTilesURL (Some "/data/tiles/") "mbtiles://parks/5/10/12"
     = resolveMBTilesURL (Some "/data/tiles/") "mbtiles://parks"
  /\ match_TILE_REGEXP "mbtiles://parks/5/10/12"
     = Some ["mbtiles://parks/5/10/12"; "parks"; "5"; "10"; "12"].
Proof.
  split; [reflexivity|].
  destruct (tilejson_template_leads_back_to_archive
              (Some "/data/tiles/") "mbtiles://parks" "parks" "5" "10" "12"
              eq_refl eq_refl eq_refl eq_refl eq_refl eq_refl eq_refl)
    as (_ & A & B).
  split; [exact A | exact (B eq_refl)].
Defined.

Lemma local_tile_found_witness :
  startsWith "mbtiles://" (url local_tile_request) = true
  /\ trace sample_world
       (request parse_known (Some "/data/tiles/") local_tile_request engine_callback)
     = [archive_opened "/data/tiles/parks.mbtiles";
        tile_queried "5" "10" "12";
        callback_called None
          (Some {| modified := None; expires := None; etag := None;
                   data := Some (Raw "tile-5-10-12") |})].
Proof.
  split; [reflexivity|].
  destruct (local_tile_found_is_passed_through
              parse_known sample_world (Some "/data/tiles/")
              "mbtiles://parks/5/10/12" eq_refl) as (file & Hf & H).
  vm_compute in Hf. injection Hf as <-.
  exact (H parks_archive _ _ "5" "10" "12" "tile-5-10-12" eq_refl eq_refl eq_refl).
Defined.

Lemma source_metadata_witness :
  resolveNamefromURL "mbtiles://parks" = inr "parks"
  /\ open_archive sample_world "/data/tiles/parks.mbtiles" = inr parks_archive
  /\ trace sample_world
       (getTileJSON (Some "/data/tiles/") "mbtiles://parks" engine_callback)
     = [archive_opened "/data/tiles/parks.mbtiles"; info_queried;
        callback_called None
          (Some {| modified := None; expires := None; etag := None;
                   data := Some (Stringified
                     {| tj_tilejson := "1.0.0";
                        tj_tiles := ["mbtiles://parks/{z}/{x}/{y}"];
                        tj_minzoom := Some (JNum (num_of_Z 0));
                        tj_maxzoom := Some (JNum (num_of_Z 14));
                        tj_center := None;
                        tj_bounds := None |}) |})].
Proof.
  split; [reflexivity|]. split; [reflexivity|].
  exact (proj2 (proj2 (source_metadata_outcomes
                         sample_world (Some "/data/tiles/") "mbtiles://parks" "parks"
                         eq_refl))
               parks_archive _ eq_refl eq_refl).
Defined.

Lemma request_calls_back_once_witness :
  startsWith "mbtiles://" (url local_tile_request) = true
  /\ kind local_tile_request = 3%Z
  /\ List.length
       (callbacks
          (trace sample_world
             (request parse_known (Some "/data/tiles/") local_tile_request
                      engine_callback))) = 1.
Proof.
  split; [reflexivity|]. split; [reflexivity|].
  exact (proj2 (request_calls_back_at_most_once
                  parse_known sample_world (Some "/data/tiles/") local_tile_request)
               eq_refl (or_intror eq_refl)).
Defined.

Lemma request_backends_apart_witness :
  startsWith "mbtiles://" (url remote_tile_request) = false
  /\ never is_archive_event
       (trace sample_world
          (request parse_known (Some "/data/tiles/") remote_tile_request
                   engine_callback)) = true.
Proof.
  split; [reflexivity|].
  exact (proj2 (request_keeps_backends_apart
                  parse_known sample_world (Some "/data/tiles/") remote_tile_request)
               eq_refl).
Defined.

Lemma remote_error_body_witness :
  http_get bad_gateway_world "https://tiles.example/3/1/2.png"
  = inr ({| statusCode := 502; headers := fun _ => None |},
         "<html>Bad Gateway</html>")
  /\ parse_known "<html>Bad Gateway</html>"
     = inl (Error [Txt "Unexpected token in JSON"])
  /\ trace bad_gateway_world
       (getRemoteTile parse_known "https://tiles.example/3/1/2.png" engine_callback)
     = [http_requested "https://tiles.example/3/1/2.png";
        uncaught (Error [Txt "Unexpected token in JSON"])].
Proof.
  split; [reflexivity|]. split; [reflexivity|].
  refine (proj1 (proj1 (remote_error_body_edge_cases
                          parse_known bad_gateway_world
                          "https://tiles.example/3/1/2.png"
                          {| statusCode := 502; headers := fun _ => None |}
                          "<html>Bad Gateway</html>" eq_refl _)
                       (Error [Txt "Unexpected token in JSON"]) eq_refl)).
  discriminate.
Defined.

Lemma validation_exact_witness :
  malformed sample_style center_and_zoom = false
  /\ validation sample_style (num_of_Z 1024) (num_of_Z 1024) center_and_zoom = None.
Proof.
  split; [reflexivity|].
  exact (proj2 (validation_rejects_exactly_the_malformed
                  sample_style (num_of_Z 1024) (num_of_Z 1024) center_and_zoom)
               (conj eq_refl eq_refl)).
Defined.

Lemma render_resolves_witness :
  validation sample_style (num_of_Z 1024) (num_of_Z 1024) center_and_zoom = None
  /\ encode_png working_world "rgba" (num_of_Z 1024) (num_of_Z 1024)
     = Encoded "PNG:rgba"
  /\ new_Promise working_world
       (render fit_at_origin sample_style None None center_and_zoom)
     = Fulfilled "PNG:rgba".
Proof.
  split; [reflexivity|]. split; [reflexivity|].
  exact (proj1 (proj1 (render_outcome_follows_encoder
                         fit_at_origin working_world sample_style None None
                         center_and_zoom "rgba" eq_refl eq_refl)
                      "PNG:rgba" eq_refl)).
Defined.

